(** * Deeppowers-Demo: the FHE filter server and its MCP client

    A shallow embedding of [fhe_server.py] and [mcp_server.py] and the
    properties of the session and artifact-exchange protocol.

    Layout: the Python values and the [pathlib] joins the code relies on,
    the interfaces of the modules the two files import ([common],
    [client_server_interface], [time], [uuid], [requests], [urllib], [PIL],
    [numpy]), the state of the host and its monad, the server's handlers,
    the client's tools, a small concrete deployment, and then the
    theorems. The route [/] of the server and the tool
    [get_available_filters] of the client, which return a constant and the
    decoded body of a request, are left out. *)

From Stdlib Require Import ZArith List String Ascii.
From Stdlib.Strings Require Import Byte.
From stdpp Require Import base option list gmap strings pretty.

(** ** Python values *)

(** [bytes] objects. *)
Abbreviation bytes := (list byte).

(** [pathlib.PurePosixPath], as its [parts] tuple: an absolute path starts
    with the component ["/"]. *)
Abbreviation Path := (list string).

(** The [errno] of an [OSError]. *)
Inductive Errno := ENOENT | EACCES | EISDIR | ENOTDIR | ENOSPC | ENAMETOOLONG.

(** The exceptions the two files can raise, named as Python names them.
    [External call] is whatever an imported library raises inside [call].
    The spec's [ArtifactNotFound] is [FileNotFoundError] (a read of a
    location nobody wrote), its [UnknownFilter] is the [KeyError] of the
    [FHE_SERVERS] lookup, its [InvalidImageShape] is the [AssertionError]
    of the shape check, its [ComputeEngineError] and [RemoteComputeError]
    are [External]. *)
Inductive Exn :=
| OSError (errno : Errno) (p : Path)
| KeyError (k : string)
| IndexError
| ValueError (msg : string)
| AssertionError (msg : string)
| External (call : string).

Abbreviation FileNotFoundError := (OSError ENOENT).

Inductive Result (A : Type) :=
| Ok (a : A)
| Raise (e : Exn).
Arguments Ok {A} a.
Arguments Raise {A} e.

(** ** Strings *)

(** [c in s] for a character [c]. *)
Fixpoint has_char (c : ascii) (s : string) : bool :=
  match s with
  | EmptyString => false
  | String d s' => if Ascii.eqb d c then true else has_char c s'
  end.

(** The keys on which the file names below can be read back: no part holds
    a slash, and neither the filter nor the identity holds an underscore
    (a [uuid4] string holds neither). *)
Definition plain_key (name filter_name id : string) : bool :=
  negb (has_char "/" name) && negb (has_char "/" filter_name) && negb (has_char "/" id)
  && negb (has_char "_" filter_name) && negb (has_char "_" id).

(** [s.lower()] on ASCII. *)
Definition lower_char (c : ascii) : ascii :=
  let n := N_of_ascii c in
  if ((65 <=? n) && (n <=? 90))%N then ascii_of_N (n + 32) else c.

Fixpoint lower (s : string) : string :=
  match s with
  | EmptyString => EmptyString
  | String c s' => String (lower_char c) (lower s')
  end.

(** [sep.join(l)] *)
Fixpoint join (sep : string) (l : list string) : string :=
  match l with
  | [] => ""
  | [x] => x
  | x :: l' => x +:+ sep +:+ join sep l'
  end.

(** [repr] of a tuple of integers: [(100, 100, 3)], [(5,)], [()]. *)
Definition tuple_repr (t : list nat) : string :=
  match t with
  | [n] => "(" +:+ pretty n +:+ ",)"
  | _ => "(" +:+ join ", " (pretty <$> t) +:+ ")"
  end.

(** ** pathlib *)

(** [s.split(sep)] for a one-character separator. *)
Fixpoint split_at (sep : ascii) (s : string) : list string :=
  match s with
  | EmptyString => [""]
  | String c s' =>
      if Ascii.eqb c sep then "" :: split_at sep s'
      else match split_at sep s' with
           | [] => [String c ""]
           | w :: ws => String c w :: ws
           end
  end.

(** The components pathlib keeps of a segment: empty components and ["."]
    are dropped, [".."] is kept. *)
Definition parse_parts (s : string) : list string :=
  filter (λ c : string, c ≠ "" ∧ c ≠ ".") (split_at "/"%char s).

(** The root of a segment: ["/"] for one or for three and more leading
    slashes, ["//"] for exactly two, none for a relative segment. *)
Definition root_of (s : string) : option string :=
  match s with
  | String "/"%char (String "/"%char (String "/"%char _)) => Some "/"
  | String "/"%char (String "/"%char _) => Some "//"
  | String "/"%char _ => Some "/"
  | _ => None
  end.

(** [p / s]: an absolute segment replaces [p], a relative one extends it. *)
Definition path_div (p : Path) (s : string) : Path :=
  match root_of s with
  | Some r => r :: parse_parts s
  | None => p ++ parse_parts s
  end.

(** [Path(s)], which is also how the system resolves a path given as a
    string (symbolic links and [".."] apart). *)
Definition path_of_str (s : string) : Path := path_div [] s.

(** [str(p)] *)
Definition path_str (p : Path) : string :=
  match p with
  | [] => "."
  | r :: rest =>
      if decide (r = "/" ∨ r = "//") then r +:+ join "/" rest else join "/" p
  end.

(** [p.name]: the last component. *)
Definition path_name (p : Path) : string := List.last p "".

(** ** numpy and PIL values *)

(** An integer array: its shape and its items in row-major order. *)
Record ndarray := mk_ndarray {
  shape : list nat;
  items : list Z;
}.

(** A decoded [PIL.Image]: its mode, its size as (width, height), and its
    pixel bytes ([tobytes()]). *)
Record Image := mk_Image {
  mode : string;
  size : nat * nat;
  raw : bytes;
}.

(** What [deserialize_decrypt_post_process] hands back: the tool tests
    [isinstance(decrypted_output, bytes)]. *)
Inductive Decrypted :=
| DBytes (b : bytes)
| DArray (a : ndarray).

(** A [requests.Response]: the body and the headers, a case-insensitive
    dictionary kept here under lower-cased names. *)
Record HTTPResponse := mk_HTTPResponse {
  r_content : bytes;
  r_headers : gmap string string;
}.

(** ** The imported modules *)

(** [common.py]: the directories and the filter list. The module is not
    part of the two files; its constants are parameters. *)
Class Common := {
  FILTERS_PATH : Path;
  KEYS_PATH : Path;
  SERVER_TMP_PATH : Path;
  CLIENT_TMP_PATH : Path;
  AVAILABLE_FILTERS : list string;
}.

(** Python's [float] with the operations the code uses. Binary floating
    point, its order, [round] and [repr] are the interpreter's; they are
    parameters. [float_of_str] is [None] where [float(s)] raises
    [ValueError]. *)
Class PyFloat := {
  float : Type;
  float_sub : float → float → float;
  float_round : float → Z → float;
  float_of_int : Z → float;
  float_of_str : string → option float;
  float_str : float → string;
  float_leb : float → float → bool;
}.

(** The process environment: what [time.time()] reads at its n-th call,
    what [str(uuid.uuid4())] is at its n-th call, which locations cannot be
    opened for writing (a missing directory, permissions), with the [errno]
    of the failure, and what opening for reading raises at a location that
    holds no file when that is not [FileNotFoundError]: [NotADirectoryError]
    below the name of a file, [OSError] with [ENAMETOOLONG] for a name that
    is too long, [ValueError] for a name with a NUL. *)
Class Env `{PyFloat} := {
  clock : nat → float;
  uuid4 : nat → string;
  open_wb_error : Path → option Errno;
  open_rb_error : Path → option Exn;
}.

(** [client_server_interface.FHEServer]: the engine of one filter, loaded
    from its deployment directory; [run] is the opaque homomorphic
    evaluation and is [None] where it raises. *)
Class FHEServerAPI := {
  FHEServer : Type;
  FHEServer_load : Path → FHEServer;
  FHEServer_run : FHEServer → bytes → bytes → option bytes;
}.

(** [client_server_interface.FHEClient]: the client objects and their
    methods, as transitions of the library's own state (the key
    directories on disk, the keys held by the objects, its randomness).
    Nothing is assumed on what key generation does in a directory that
    already holds keys. A method is [None] where it raises. *)
Class FHEClientAPI := {
  FHEState : Type;
  FHEClient : Type;
  FHEClient_new : Path → string → Path → FHEState → option FHEClient * FHEState;
  FHEClient_generate_private_and_evaluation_keys :
    FHEClient → FHEState → option unit * FHEState;
  FHEClient_encrypt_serialize :
    FHEClient → ndarray → FHEState → option bytes * FHEState;
  FHEClient_get_serialized_evaluation_keys :
    FHEClient → FHEState → option bytes * FHEState;
  FHEClient_deserialize_decrypt_post_process :
    FHEClient → bytes → FHEState → option Decrypted * FHEState;
}.

(** The codecs of [PIL]: decoding a file ([Image.open] and the load it
    delays), the pixel bytes after [convert] and after [resize], and the
    JPEG encoder: the bytes it writes, [None] where it raises, and then
    what it had written by the time it raised. *)
Class Imaging := {
  Image_decode : bytes → option Image;
  convert_raw : Image → string → bytes;
  resize_raw : Image → nat * nat → bytes;
  jpeg_encode : Image → option bytes;
  jpeg_partial : Image → bytes;
}.

(** [requests.get] and [requests.post]: the answer of the network to a
    request, [None] where the call raises (no connection, timeout). A
    response of any status code is an answer. *)
Class Net := {
  requests_get : string → option HTTPResponse;
  requests_post :
    string → list (string * string) → list (string * (string * bytes * string)) →
    option HTTPResponse;
}.

(** [urllib.parse.unquote]. Its first statement returns the argument
    itself when it holds no ['%']; that is all the properties below need
    of it. *)
Class Urllib := {
  unquote : string → string;
  unquote_plain : ∀ s, has_char "%" s = false → unquote s = s;
}.

(** A model of percent-decoding on ASCII: [%XX] below [%80] becomes the
    character, everything else stays (Python decodes the escapes from
    [%80] on as UTF-8). *)
Definition hex_digit (c : ascii) : option N :=
  let n := N_of_ascii c in
  if ((48 <=? n) && (n <=? 57))%N then Some (n - 48)%N
  else if ((65 <=? n) && (n <=? 70))%N then Some (n - 55)%N
  else if ((97 <=? n) && (n <=? 102))%N then Some (n - 87)%N
  else None.

Fixpoint percent_decode (s : string) : string :=
  match s with
  | EmptyString => EmptyString
  | String c s' =>
      match s' with
      | String h (String l rest) =>
          match hex_digit h, hex_digit l with
          | Some a, Some b =>
              if Ascii.eqb c "%" && (a <? 8)%N
              then String (ascii_of_N (16 * a + b)) (percent_decode rest)
              else String c (percent_decode s')
          | _, _ => String c (percent_decode s')
          end
      | _ => String c (percent_decode s')
      end
  end.

(** ** The state of the host and its monad *)

Section model.
Context `{Common, PyFloat, FHEServerAPI, FHEClientAPI, Imaging, Net, Urllib}.
Context `{!Env}.

(** The calls a tool makes to the network and to the FHE client library,
    with what the constructor and the requests gave back. *)
Inductive Call :=
| Call_get (url : string) (ret : option HTTPResponse)
| Call_post (url : string) (data : list (string * string))
    (uploads : list (string * (string * bytes * string))) (ret : option HTTPResponse)
| Call_FHEClient (path_dir : Path) (filter_name : string) (key_dir : Path)
    (ret : option FHEClient)
| Call_generate_private_and_evaluation_keys (client : FHEClient)
| Call_encrypt_serialize (client : FHEClient) (a : ndarray)
| Call_get_serialized_evaluation_keys (client : FHEClient)
| Call_deserialize_decrypt_post_process (client : FHEClient) (b : bytes).

(** Server and client run on one host ([FHE_SERVER_URL] is localhost):
    its files, the clock readings and the uuids drawn so far, the lines
    printed, the state of the FHE client library, and the calls made so
    far, oldest first. The trace is not something the code holds: it is
    what the properties on the collaborators are stated on. *)
Record World := mkWorld {
  files : gmap Path bytes;
  ticks : nat;
  uuids : nat;
  stdout : list string;
  fhe : FHEState;
  trace : list Call;
}.

Definition set_files (f : gmap Path bytes) (w : World) : World :=
  mkWorld f (ticks w) (uuids w) (stdout w) (fhe w) (trace w).

(** A handler runs on the world and returns or raises; the world a raise
    leaves behind is kept, as a failed request leaves its files behind. *)
Definition M (A : Type) : Type := World → Result A * World.

Global Instance M_ret : MRet M := λ A a w, (Ok a, w).

Global Instance M_bind : MBind M := λ A B f m w,
  match m w with
  | (Ok a, w') => f a w'
  | (Raise e, w') => (Raise e, w')
  end.

Definition raise {A} (e : Exn) : M A := λ w, (Raise e, w).

Definition lift {A} (r : Result A) : M A := λ w, (r, w).

(** The outcome of a library call. *)
Definition ext {A} (call : string) (r : option A) : Result A :=
  match r with
  | Some a => Ok a
  | None => Raise (External call)
  end.

(** [l[i]] *)
Definition index {A} (l : list A) (i : nat) : M A :=
  match l !! i with
  | Some a => mret a
  | None => raise IndexError
  end.

(** [d[k]] *)
Definition getitem {A} (d : gmap string A) (k : string) : M A :=
  match d !! k with
  | Some a => mret a
  | None => raise (KeyError k)
  end.

(** [assert cond, msg] *)
Definition assert_ (cond : bool) (msg : string) : M unit :=
  if cond then mret tt else raise (AssertionError msg).

(** [float(s)] *)
Definition float_ (s : string) : M float :=
  match float_of_str s with
  | Some x => mret x
  | None => raise (ValueError ("could not convert string to float: " +:+ s))
  end.

(** [open(p, "wb")]: creates or truncates the file; the handle is the
    path. *)
Definition open_wb (p : Path) : M Path := λ w,
  match open_wb_error p with
  | Some errno => (Raise (OSError errno p), w)
  | None => (Ok p, set_files (<[p := []]> (files w)) w)
  end.

(** [f.write(b)] on a handle opened for writing: appends at the end. *)
Definition write (f : Path) (b : bytes) : M unit := λ w,
  (Ok tt, set_files (<[f := default [] (files w !! f) ++ b]> (files w)) w).

(** What [open(p, "rb")] raises where no file is stored at [p]:
    [FileNotFoundError], unless the environment has another error for the
    location. *)
Definition absent_error (p : Path) : Exn :=
  default (FileNotFoundError p) (open_rb_error p).

(** [open(p, "rb")]: the files the host holds are regular files that the
    process can read. *)
Definition open_rb (p : Path) : M Path := λ w,
  match files w !! p with
  | Some _ => (Ok p, w)
  | None => (Raise (absent_error p), w)
  end.

(** [f.read()] on a handle just opened for reading: the whole file. *)
Definition read (f : Path) : M bytes := λ w,
  (Ok (default [] (files w !! f)), w).

(** [time.time()] *)
Definition time : M float := λ w,
  (Ok (clock (ticks w)),
   mkWorld (files w) (S (ticks w)) (uuids w) (stdout w) (fhe w) (trace w)).

(** [str(uuid.uuid4())] *)
Definition uuid : M string := λ w,
  (Ok (uuid4 (uuids w)),
   mkWorld (files w) (ticks w) (S (uuids w)) (stdout w) (fhe w) (trace w)).

(** [print(line)] *)
Definition print (line : string) : M unit := λ w,
  (Ok tt, mkWorld (files w) (ticks w) (uuids w) (stdout w ++ [line]) (fhe w) (trace w)).

(** A request: the answer is the network's, the call is recorded. *)
Definition net_call (name : string) (call : option HTTPResponse → Call)
    (r : option HTTPResponse) : M HTTPResponse := λ w,
  (ext name r,
   mkWorld (files w) (ticks w) (uuids w) (stdout w) (fhe w) (trace w ++ [call r])).

(** A call into the FHE client library: it moves the library's state
    and is recorded. *)
Definition fhe_call {A} (name : string) (call : option A → Call)
    (method : FHEState → option A * FHEState) : M A := λ w,
  let '(r, s) := method (fhe w) in
  (ext name r,
   mkWorld (files w) (ticks w) (uuids w) (stdout w) s (trace w ++ [call r])).

(** ** fhe_server.py *)

(** [FHE_SERVERS]: one engine per available filter, built at import in
    the order of the list (a later duplicate replaces an earlier one). *)
Definition FHE_SERVERS : gmap string FHEServer :=
  fold_left
    (λ d filter,
       <[filter := FHEServer_load (path_div FILTERS_PATH (filter +:+ "/deployment"))]> d)
    AVAILABLE_FILTERS ∅.

Definition get_server_file_path (name user_id filter_name : string) : Path :=
  path_div SERVER_TMP_PATH (name +:+ "_" +:+ filter_name +:+ "_" +:+ user_id).

Definition get_available_filters : list string := AVAILABLE_FILTERS.

Definition send_input (user_id filter : string) (uploads : list bytes) : M unit :=
  let encrypted_image_path := get_server_file_path "encrypted_image" user_id filter in
  let evaluation_key_path := get_server_file_path "evaluation_key" user_id filter in
  encrypted_image ← open_wb encrypted_image_path;
  evaluation_key ← open_wb evaluation_key_path;
  upload0 ← index uploads 0;
  write encrypted_image upload0;;
  upload1 ← index uploads 1;
  write evaluation_key upload1.

Definition run_fhe (user_id filter : string) : M float :=
  let encrypted_image_path := get_server_file_path "encrypted_image" user_id filter in
  let evaluation_key_path := get_server_file_path "evaluation_key" user_id filter in
  encrypted_image_file ← open_rb encrypted_image_path;
  evaluation_key_file ← open_rb evaluation_key_path;
  encrypted_image ← read encrypted_image_file;
  evaluation_key ← read evaluation_key_file;
  fhe_server ← getitem FHE_SERVERS filter;
  start ← time;
  encrypted_output_image ←
    lift (ext "FHEServer.run" (FHEServer_run fhe_server encrypted_image evaluation_key));
  stop ← time;
  let fhe_execution_time := float_round (float_sub stop start) 2 in
  let encrypted_output_path := get_server_file_path "encrypted_output" user_id filter in
  encrypted_output ← open_wb encrypted_output_path;
  write encrypted_output encrypted_output_image;;
  mret fhe_execution_time.

Definition get_output (user_id filter : string) : M bytes :=
  let encrypted_output_path := get_server_file_path "encrypted_output" user_id filter in
  encrypted_output_file ← open_rb encrypted_output_path;
  read encrypted_output_file.

(** A [Response]: its body and its extra headers. *)
Record Response := mkResponse {
  content : bytes;
  headers : list (string * string);
}.

Definition fhe_full (user_id filter : string) (uploads : list bytes) : M Response :=
  let encrypted_image_path := get_server_file_path "encrypted_image" user_id filter in
  let evaluation_key_path := get_server_file_path "evaluation_key" user_id filter in
  encrypted_image ← open_wb encrypted_image_path;
  evaluation_key ← open_wb evaluation_key_path;
  upload0 ← index uploads 0;
  write encrypted_image upload0;;
  upload1 ← index uploads 1;
  write evaluation_key upload1;;
  print "Encrypted image and evaluation key saved";;
  encrypted_image_file ← open_rb encrypted_image_path;
  evaluation_key_file ← open_rb evaluation_key_path;
  encrypted_image ← read encrypted_image_file;
  evaluation_key ← read evaluation_key_file;
  fhe_server ← getitem FHE_SERVERS filter;
  print "FHE server initialization completed";;
  start ← time;
  encrypted_output_image ←
    lift (ext "FHEServer.run" (FHEServer_run fhe_server encrypted_image evaluation_key));
  stop ← time;
  let fhe_execution_time := float_round (float_sub stop start) 2 in
  print "FHE computation completed";;
  let encrypted_output_path := get_server_file_path "encrypted_output" user_id filter in
  encrypted_output ← open_wb encrypted_output_path;
  write encrypted_output encrypted_output_image;;
  print "Encrypted output image saved";;
  encrypted_output_file ← open_rb encrypted_output_path;
  encrypted_output ← read encrypted_output_file;
  print "Returning encrypted output result completed";;
  mret (mkResponse encrypted_output
          [("X-FHE-Execution-Time", float_str fhe_execution_time)]).

Definition test_image (image_name : string) : M Response :=
  let image_path := path_div CLIENT_TMP_PATH image_name in
  image_file ← open_rb image_path;
  image_data ← read image_file;
  mret (mkResponse image_data [("content-type", "image/jpeg")]).

(** The three stage calls one after the other, the caller going on only
    after a success, answered the way [fhe_full] answers. *)
Definition three_calls (user_id filter : string) (uploads : list bytes) : M Response :=
  send_input user_id filter uploads;;
  fhe_execution_time ← run_fhe user_id filter;
  encrypted_output ← get_output user_id filter;
  mret (mkResponse encrypted_output
          [("X-FHE-Execution-Time", float_str fhe_execution_time)]).

(** ** mcp_server.py *)

Definition FHE_SERVER_URL : string := "http://localhost:8000".

(** [requests.get(url)], [requests.post(url, data=..., files=...)];
    [HTTP_TIMEOUT] only bears on when the call raises. *)
Definition get (url : string) : M HTTPResponse :=
  net_call "requests.get" (Call_get url) (requests_get url).

Definition post (url : string) (data : list (string * string))
    (uploads : list (string * (string * bytes * string))) : M HTTPResponse :=
  net_call "requests.post" (Call_post url data uploads) (requests_post url data uploads).

(** The constructor and the methods of [FHEClient]. *)
Definition new_FHEClient (path_dir : Path) (filter_name : string) (key_dir : Path)
    : M FHEClient :=
  fhe_call "FHEClient" (Call_FHEClient path_dir filter_name key_dir)
    (FHEClient_new path_dir filter_name key_dir).

Definition generate_private_and_evaluation_keys (client : FHEClient) : M unit :=
  fhe_call "generate_private_and_evaluation_keys"
    (λ _, Call_generate_private_and_evaluation_keys client)
    (FHEClient_generate_private_and_evaluation_keys client).

Definition encrypt_serialize (client : FHEClient) (a : ndarray) : M bytes :=
  fhe_call "encrypt_serialize" (λ _, Call_encrypt_serialize client a)
    (FHEClient_encrypt_serialize client a).

Definition get_serialized_evaluation_keys (client : FHEClient) : M bytes :=
  fhe_call "get_serialized_evaluation_keys"
    (λ _, Call_get_serialized_evaluation_keys client)
    (FHEClient_get_serialized_evaluation_keys client).

Definition deserialize_decrypt_post_process (client : FHEClient) (b : bytes)
    : M Decrypted :=
  fhe_call "deserialize_decrypt_post_process"
    (λ _, Call_deserialize_decrypt_post_process client b)
    (FHEClient_deserialize_decrypt_post_process client b).

(** [Image.open(path)]: the file is read and decoded (PIL decodes at the
    first use of the pixels; nothing happens in between). *)
Definition Image_open (path : string) : M Image :=
  f ← open_rb (path_of_str path);
  b ← read f;
  lift (ext "Image.open" (Image_decode b)).

(** [image.convert(m)] and [image.resize(sz)]: a new image of that mode,
    of that size. *)
Definition Image_convert (image : Image) (m : string) : Image :=
  mk_Image m (size image) (convert_raw image m).

Definition Image_resize (image : Image) (sz : nat * nat) : Image :=
  mk_Image (mode image) sz (resize_raw image sz).

(** [len(image.getbands())] *)
Definition bands (m : string) : nat :=
  if decide (m ∈ ["RGB"; "YCbCr"; "LAB"; "HSV"]) then 3
  else if decide (m ∈ ["RGBA"; "CMYK"; "RGBX"; "RGBa"]) then 4
  else if decide (m ∈ ["LA"; "PA"; "La"]) then 2
  else 1.

Definition Z_of_byte (b : byte) : Z := Z.of_N (Byte.to_N b).

Definition byte_of_Z (z : Z) : byte :=
  default x00 (Byte.of_N (Z.to_N (z mod 256))).

(** [numpy.array(image)]: height, width and, with several bands, the
    bands. *)
Definition numpy_array (image : Image) : ndarray :=
  let '(width, height) := size image in
  mk_ndarray
    (if decide (bands (mode image) = 1) then [height; width]
     else [height; width; bands (mode image)])
    (Z_of_byte <$> raw image).

(** [numpy.frombuffer(b, dtype=numpy.uint8)] *)
Definition numpy_frombuffer (b : bytes) : ndarray :=
  mk_ndarray [length b] (Z_of_byte <$> b).

(** [a.reshape(sh)] *)
Definition reshape (a : ndarray) (sh : list nat) : Result ndarray :=
  if decide (length (items a) = foldr Nat.mul 1 sh)
  then Ok (mk_ndarray sh (items a))
  else Raise (ValueError ("cannot reshape array of size "
               +:+ pretty (length (items a)) +:+ " into shape ("
               +:+ join "," (pretty <$> sh) +:+ ")")).

(** [numpy.array(a, dtype=numpy.uint8)] on an integer array. *)
Definition astype_uint8 (a : ndarray) : ndarray :=
  mk_ndarray (shape a) ((λ z, z mod 256)%Z <$> items a).

(** [Image.fromarray(a)] on a [uint8] array. *)
Definition Image_fromarray (a : ndarray) : Result Image :=
  let pixels := byte_of_Z <$> items a in
  match shape a with
  | [height; width] => Ok (mk_Image "L" (width, height) pixels)
  | [height; width; 1] => Ok (mk_Image "L" (width, height) pixels)
  | [height; width; 2] => Ok (mk_Image "LA" (width, height) pixels)
  | [height; width; 3] => Ok (mk_Image "RGB" (width, height) pixels)
  | [height; width; 4] => Ok (mk_Image "RGBA" (width, height) pixels)
  | _ => Raise (External "Image.fromarray")
  end.

(** [os.path.exists(p)] *)
Definition path_exists (p : Path) : M bool := λ w,
  (Ok (bool_decide (is_Some (files w !! p))), w).

(** [os.remove(p)] *)
Definition remove (p : Path) : M unit := λ w,
  (Ok tt, set_files (delete p (files w)) w).

(** [image.save(path, format="JPEG")]: [Image.save] opens the file, which
    creates or truncates it, and has the encoder write into it; where the
    encoder raises, it closes the file, removes it if this call created
    it, and raises again. *)
Definition Image_save (image : Image) (path : Path) : M unit :=
  existed ← path_exists path;
  f ← open_wb path;
  match jpeg_encode image with
  | Some encoded => write f encoded
  | None =>
      write f (jpeg_partial image);;
      (if existed : bool then mret tt else remove path);;
      raise (External "Image.save")
  end.

Definition download_image (image_url : string) : M string :=
  response ← get image_url;
  u ← uuid;
  let image_path := path_str CLIENT_TMP_PATH +:+ "/" +:+ u +:+ ".jpg" in
  f ← open_wb (path_of_str image_path);
  write f (r_content response);;
  mret image_path.

Definition get_client_file_path (name id filter_name : string) : Path :=
  path_div CLIENT_TMP_PATH (name +:+ "_" +:+ filter_name +:+ "_" +:+ id).

(** The dictionary [process_image_with_fhe] returns. *)
Record JobResult := mkJobResult {
  job_user_id : string;
  job_filter_name : string;
  job_execution_time : float;
  job_output_id : string;
  job_status : string;
}.

Definition process_image_with_fhe (image_url filter_name : string) : M JobResult :=
  image_path ← download_image image_url;
  user_id ← uuid;
  client ← new_FHEClient
    (path_div FILTERS_PATH (filter_name +:+ "/deployment"))
    filter_name
    (path_div KEYS_PATH (filter_name +:+ "_" +:+ user_id));
  key_result ← generate_private_and_evaluation_keys client;
  input_image ← Image_open image_path;
  let input_image :=
    if decide (mode input_image ≠ "RGB") then Image_convert input_image "RGB"
    else input_image in
  let input_image :=
    if decide (size input_image ≠ (100, 100)) then Image_resize input_image (100, 100)
    else input_image in
  let input_image_array := numpy_array input_image in
  assert_ (bool_decide (shape input_image_array = [100; 100; 3]))
    ("Incorrect image shape: " +:+ tuple_repr (shape input_image_array));;
  encrypt_result ← encrypt_serialize client input_image_array;
  evaluation_keys ← get_serialized_evaluation_keys client;
  let uploads :=
    [("files", ("encrypted_image.bin", encrypt_result, "application/octet-stream"));
     ("files", ("evaluation_keys.bin", evaluation_keys, "application/octet-stream"))] in
  let data := [("user_id", user_id); ("filter", filter_name)] in
  response ← post (FHE_SERVER_URL +:+ "/fhe_full") data uploads;
  execution_time ←
    match r_headers response !! lower "X-FHE-Execution-Time" with
    | Some s => float_ s
    | None => mret (float_of_int 0)
    end;
  let encrypted_output := r_content response in
  output_id ← uuid;
  let output_path := get_client_file_path "output" output_id filter_name in
  f ← open_wb output_path;
  write f encrypted_output;;
  mret (mkJobResult user_id filter_name execution_time output_id "success").

Definition decrypt_output_image (user_id filter_name output_id : string) : M string :=
  let decoded_filter_name := unquote filter_name in
  client ← new_FHEClient
    (path_div FILTERS_PATH (decoded_filter_name +:+ "/deployment"))
    decoded_filter_name
    (path_div KEYS_PATH (decoded_filter_name +:+ "_" +:+ user_id));
  key_result ← generate_private_and_evaluation_keys client;
  let output_path := get_client_file_path "output" output_id decoded_filter_name in
  f ← open_rb output_path;
  encrypted_output ← read f;
  decrypted_output ← deserialize_decrypt_post_process client encrypted_output;
  decrypted_output_array ←
    match decrypted_output with
    | DBytes b => lift (reshape (numpy_frombuffer b) [100; 100; 3])
    | DArray a => mret (astype_uint8 a)
    end;
  pil_image ← lift (Image_fromarray decrypted_output_array);
  image_uuid ← uuid;
  let temp_jpg_path :=
    get_client_file_path ("temp_jpg_" +:+ image_uuid) (user_id +:+ ".jpeg")
      decoded_filter_name in
  Image_save pil_image temp_jpg_path;;
  let image_filename := path_name temp_jpg_path in
  mret (FHE_SERVER_URL +:+ "/test/image/" +:+ image_filename).

(** ** What the properties are stated with *)

(** The host apart from the lines printed. *)
Definition host_state (w : World) :=
  (files w, ticks w, uuids w, fhe w, trace w).

(** The calls made between two states of the host. *)
Definition calls_since (w w' : World) : list Call :=
  drop (length (trace w)) (trace w').

(** Two computations that, from hosts equal apart from the printed lines,
    give the same outcome and hosts equal apart from the printed lines. *)
Definition sim {A} (m1 m2 : M A) : Prop :=
  ∀ w1 w2, host_state w1 = host_state w2 →
    fst (m1 w1) = fst (m2 w2) ∧ host_state (snd (m1 w1)) = host_state (snd (m2 w2)).

(** [Q] holds of the outcome of [m] on [w]. *)
Definition wp {A} (m : M A) (w : World) (Q : Result A → World → Prop) : Prop :=
  Q (fst (m w)) (snd (m w)).

(** The calls of a run of [decrypt_output_image] that finds
    [encrypted_output] stored, as the client library answers them from its
    state [s]: the constructor on [path_dir] and [key_dir]; where it
    returns a client, key generation on that client; and where key
    generation returns, the decryption of [encrypted_output]. *)
Definition decrypt_calls (path_dir : Path) (filter_name : string) (key_dir : Path)
    (encrypted_output : bytes) (s : FHEState) : list Call :=
  match FHEClient_new path_dir filter_name key_dir s with
  | (None, _) => [Call_FHEClient path_dir filter_name key_dir None]
  | (Some client, s1) =>
      Call_FHEClient path_dir filter_name key_dir (Some client)
      :: Call_generate_private_and_evaluation_keys client
      :: match FHEClient_generate_private_and_evaluation_keys client s1 with
         | (None, _) => []
         | (Some _, _) =>
             [Call_deserialize_decrypt_post_process client encrypted_output]
         end
  end.

(** The three artifacts of a session, as the host holds them: the image,
    the key and the output. *)
Definition session_files (user_id filter : string) (w : World)
    : option bytes * option bytes * option bytes :=
  (files w !! get_server_file_path "encrypted_image" user_id filter,
   files w !! get_server_file_path "evaluation_key" user_id filter,
   files w !! get_server_file_path "encrypted_output" user_id filter).

(** The sessions whose file names can be read back. *)
Definition plain_session (user_id filter : string) : bool :=
  plain_key "" filter user_id.

(** The image a job encrypts: converted to RGB unless it is RGB, resized
    to 100 x 100 unless it has that size (lines 86 to 90 of the tool). *)
Definition job_input_image (input_image : Image) : Image :=
  let input_image :=
    if decide (mode input_image ≠ "RGB") then Image_convert input_image "RGB"
    else input_image in
  if decide (size input_image ≠ (100, 100)) then Image_resize input_image (100, 100)
  else input_image.

(** The lines [fhe_full] prints, one after each of its steps. *)
Definition fhe_full_lines : list string :=
  ["Encrypted image and evaluation key saved";
   "FHE server initialization completed";
   "FHE computation completed";
   "Encrypted output image saved";
   "Returning encrypted output result completed"].

(** The components that a path keeps as they are: no slash, not empty,
    not a dot; and the absolute directories made of such components, with
    one at least below the root. *)
Definition plain_component (c : string) : bool :=
  negb (has_char "/" c) && negb (String.eqb c "") && negb (String.eqb c ".").

Definition plain_dir (p : Path) : bool :=
  match p with
  | r :: c :: rest => String.eqb r "/" && forallb plain_component (c :: rest)
  | _ => false
  end.

(** *** The keys the code derives locations for *)

(** The kinds [fhe_server.py] passes to [get_server_file_path]. *)
Definition server_kinds : list string :=
  ["encrypted_image"; "evaluation_key"; "encrypted_output"].

(** [s] without the prefix [p], if it starts with it. *)
Fixpoint strip_prefix (p s : string) : option string :=
  match p, s with
  | EmptyString, _ => Some s
  | String a p', String b s' => if Ascii.eqb a b then strip_prefix p' s' else None
  | String _ _, EmptyString => None
  end.

(** The kinds [mcp_server.py] passes to [get_client_file_path]: [output],
    and [temp_jpg_<uuid>] with a uuid that holds neither an underscore nor
    a slash. *)
Definition client_kind (name : string) : bool :=
  String.eqb name "output"
  || match strip_prefix "temp_jpg_" name with
     | Some image_uuid => negb (has_char "_" image_uuid) && negb (has_char "/" image_uuid)
     | None => false
     end.

(** The filters and identities on which the file names can be read back:
    neither holds a slash, and the identity holds no underscore (a [uuid4]
    string holds neither). The filter may hold underscores. *)
Definition clean_session (user_id filter : string) : bool :=
  negb (has_char "/" filter) && negb (has_char "/" user_id) && negb (has_char "_" user_id).

Definition server_key (name filter_name id : string) : bool :=
  bool_decide (name ∈ server_kinds) && clean_session id filter_name.

Definition client_key (name filter_name id : string) : bool :=
  client_kind name && clean_session id filter_name.

(** *** Requests served one after the other *)











End model.

(** ** A small deployment

    Two filters, one of them with a percent sign in its name, an engine
    that reverses its input, a client library that builds clients on the
    deployment directories of the two filters and on no other, codecs that
    keep the pixel bytes, a network that answers every request with a body
    and no header, times counted in hundredths of a second. The examples
    and the counterexamples below run on it. *)

Module Demo.

Definition common : Common := {|
  FILTERS_PATH := ["/"; "srv"; "filters"];
  KEYS_PATH := ["/"; "srv"; "keys"];
  SERVER_TMP_PATH := ["/"; "srv"; "server_tmp"];
  CLIENT_TMP_PATH := ["/"; "srv"; "client_tmp"];
  AVAILABLE_FILTERS := ["grayscale"; "black%20white"];
|}.

Fixpoint parse_digits (acc : N) (s : string) : option N :=
  match s with
  | EmptyString => Some acc
  | String c s' => d ← Ascii.is_nat c; parse_digits (10 * acc + N.of_nat d) s'
  end.

(** Two decimals at most: enough to read back what [float_str] writes. *)
Definition parse_decimal (s : string) : option Z :=
  match split_at "."%char s with
  | [a] => (λ n, 100 * Z.of_N n)%Z <$> parse_digits 0 a
  | [a; b] =>
      n ← parse_digits 0 a;
      m ← parse_digits 0 b;
      match String.length b with
      | 1 => Some (100 * Z.of_N n + 10 * Z.of_N m)%Z
      | 2 => Some (100 * Z.of_N n + Z.of_N m)%Z
      | _ => None
      end
  | _ => None
  end.

Definition pyfloat : PyFloat := {|
  float := Z;
  float_sub := Z.sub;
  float_round := λ x _, x;
  float_of_int := λ n, (100 * n)%Z;
  float_of_str := parse_decimal;
  float_str := λ x, pretty (x / 100)%Z +:+ "." +:+ pretty (x mod 100 / 10)%Z
                 +:+ pretty (x mod 10)%Z;
  float_leb := Z.leb;
|}.

Definition env : @Env pyfloat :=
  @Build_Env pyfloat (λ n, (100 * Z.of_nat n)%Z) (λ n, "uuid" +:+ pretty n) (λ _, None)
    (λ _, None).

(** The same environment with a wall clock that is set back between any
    two readings. *)
Definition set_back : @Env pyfloat :=
  @Build_Env pyfloat (λ n, (1000 - 100 * Z.of_nat n)%Z) (λ n, "uuid" +:+ pretty n) (λ _, None)
    (λ _, None).

Definition servers : FHEServerAPI := {|
  FHEServer := Path;
  FHEServer_load := λ p, p;
  FHEServer_run := λ _ image _, Some (rev image);
|}.

Definition client : FHEClientAPI := {|
  FHEState := nat;
  FHEClient := Path;
  FHEClient_new := λ path_dir _ key_dir s,
    if bool_decide (path_dir ∈ [["/"; "srv"; "filters"; "grayscale"; "deployment"];
                                ["/"; "srv"; "filters"; "black%20white"; "deployment"]])
    then (Some key_dir, s) else (None, s);
  FHEClient_generate_private_and_evaluation_keys := λ _ s, (Some tt, S s);
  FHEClient_encrypt_serialize := λ _ a s, (Some (byte_of_Z <$> items a), s);
  FHEClient_get_serialized_evaluation_keys := λ _ s, (Some [x01], s);
  FHEClient_deserialize_decrypt_post_process := λ _ b s, (Some (DBytes b), s);
|}.

Definition imaging : Imaging := {|
  Image_decode := λ b, Some (mk_Image "RGBA" (2, 1) b);
  convert_raw := λ image _, raw image;
  resize_raw := λ image _, raw image;
  jpeg_encode := λ image, Some (raw image);
  jpeg_partial := λ _, [];
|}.

Definition net : Net := {|
  requests_get := λ _, Some (mk_HTTPResponse [x2a; x2b] ∅);
  requests_post := λ _ _ _, Some (mk_HTTPResponse [x07] ∅);
|}.

Definition percent_decode_plain (s : string) :
  has_char "%" s = false → percent_decode s = s.
Proof.
  induction s as [|c s IH]; [reflexivity|].
  cbn [has_char percent_decode]. destruct (Ascii.eqb c "%") eqn:E; [discriminate|].
  intros Hs. specialize (IH Hs).
  destruct s as [|h [|l rest]]; [reflexivity| |].
  - now rewrite IH.
  - destruct (hex_digit h), (hex_digit l); cbn [andb]; now rewrite IH.
Qed.

Definition urllib : Urllib := {|
  unquote := percent_decode;
  unquote_plain := percent_decode_plain;
|}.

(** The host before any request. *)
Definition boot : @World client :=
  @mkWorld client ∅ 0 0 [] 0 [].

(** A host that holds, as the output [o1] of the filter, bytes of the
    size the decryption tool expects. *)
Definition decryptable : @World client :=
  @mkWorld client
    (<[["/"; "srv"; "client_tmp"; "output_grayscale_o1"] := replicate (100 * 100 * 3) x00]> ∅)
    0 0 [] 0 [].

End Demo.

(** * Properties *)

(** ** Strings and paths *)

Lemma append_cons (c : ascii) (s t : string) : String c s +:+ t = String c (s +:+ t).
Proof. reflexivity. Qed.

Lemma append_nil_l (t : string) : "" +:+ t = t.
Proof. reflexivity. Qed.

Lemma append_assoc (s t u : string) : (s +:+ t) +:+ u = s +:+ t +:+ u.
Proof. induction s as [|c s IH]; [reflexivity|]. rewrite !append_cons. now f_equal. Qed.

Lemma has_char_app (c : ascii) (s t : string) :
  has_char c (s +:+ t) = has_char c s || has_char c t.
Proof.
  induction s as [|d s IH]; [reflexivity|].
  rewrite append_cons. cbn [has_char]. now destruct (Ascii.eqb d c).
Qed.

Lemma has_char_sep (c : ascii) (s t : string) : has_char c (s +:+ String c t) = true.
Proof.
  rewrite has_char_app. cbn [has_char]. rewrite Ascii.eqb_refl. apply orb_true_r.
Qed.

(** A string splits in one way at its last separator. *)
Lemma split_last_sep (c : ascii) (a1 a2 b1 b2 : string) :
  has_char c b1 = false → has_char c b2 = false →
  a1 +:+ String c b1 = a2 +:+ String c b2 → a1 = a2 ∧ b1 = b2.
Proof.
  intros H1 H2. revert a2.
  induction a1 as [|d a1 IH]; intros [|e a2]; rewrite ?append_cons, ?append_nil_l;
    intros E; simplify_eq.
  - now split.
  - now rewrite has_char_sep in H1.
  - now rewrite has_char_sep in H2.
  - destruct (IH a2) as [-> ->]; [assumption|]. now split.
Qed.

Lemma split_at_plain (c : ascii) (s : string) : has_char c s = false → split_at c s = [s].
Proof.
  induction s as [|d s IH]; [reflexivity|].
  cbn [has_char split_at]. destruct (Ascii.eqb d c); [discriminate|].
  intros Hs. now rewrite IH.
Qed.

Lemma root_of_plain (s : string) : has_char "/" s = false → root_of s = None.
Proof.
  destruct s as [|c s]; [reflexivity|]. cbn [has_char].
  destruct (Ascii.eqb c "/") eqn:E; [discriminate|]. intros _.
  unfold root_of. destruct c as [[] [] [] [] [] [] [] []]; try reflexivity; discriminate.
Qed.

(** A segment with no slash, and neither empty nor a dot, is one
    component. *)
Lemma path_div_plain (p : Path) (s : string) :
  has_char "/" s = false → s ≠ "" → s ≠ "." → path_div p s = p ++ [s].
Proof.
  intros Hs H1 H2. unfold path_div, parse_parts.
  rewrite (root_of_plain _ Hs), (split_at_plain _ _ Hs).
  rewrite filter_cons, filter_nil. now rewrite decide_True.
Qed.

(** [f"{name}_{filter_name}_{id}"] is one component when its three parts
    hold no slash. *)
Lemma path_div_artifact (p : Path) (name filter_name id : string) :
  has_char "/" name = false → has_char "/" filter_name = false →
  has_char "/" id = false →
  path_div p (name +:+ "_" +:+ filter_name +:+ "_" +:+ id)
  = p ++ [name +:+ "_" +:+ filter_name +:+ "_" +:+ id].
Proof.
  intros Hn Hf Hi.
  assert (Hc : has_char "_" (name +:+ "_" +:+ filter_name +:+ "_" +:+ id) = true)
    by exact (has_char_sep "_" name _).
  apply path_div_plain.
  - rewrite !has_char_app, Hn, Hf, Hi. reflexivity.
  - intros E. now rewrite E in Hc.
  - intros E. now rewrite E in Hc.
Qed.

(** The file name determines its three parts when neither the filter nor
    the identity holds an underscore. *)
Lemma artifact_name_inj (n1 f1 i1 n2 f2 i2 : string) :
  has_char "_" f1 = false → has_char "_" i1 = false →
  has_char "_" f2 = false → has_char "_" i2 = false →
  n1 +:+ "_" +:+ f1 +:+ "_" +:+ i1 = n2 +:+ "_" +:+ f2 +:+ "_" +:+ i2 →
  n1 = n2 ∧ f1 = f2 ∧ i1 = i2.
Proof.
  intros Hf1 Hi1 Hf2 Hi2 E.
  assert (A : ∀ n f i : string,
             n +:+ "_" +:+ f +:+ "_" +:+ i = (n +:+ String "_" f) +:+ String "_" i).
  { intros n f i. rewrite append_assoc. reflexivity. }
  rewrite !A in E.
  apply split_last_sep in E as [E ->]; [|assumption..].
  apply split_last_sep in E as [-> ->]; [|assumption..].
  now repeat split.
Qed.

(** A string splits in one way at its first separator. *)
Lemma split_first_sep (c : ascii) (a1 a2 b1 b2 : string) :
  has_char c a1 = false → has_char c a2 = false →
  a1 +:+ String c b1 = a2 +:+ String c b2 → a1 = a2 ∧ b1 = b2.
Proof.
  revert a2. induction a1 as [|d a1 IH]; intros [|e a2]; cbn [has_char];
    rewrite ?append_cons, ?append_nil_l; intros H1 H2 E; simplify_eq.
  - now split.
  - now rewrite Ascii.eqb_refl in H2.
  - now rewrite Ascii.eqb_refl in H1.
  - destruct (Ascii.eqb e c); [discriminate|].
    destruct (IH a2 H1 H2) as [-> ->]; [assumption|]. now split.
Qed.

Lemma strip_prefix_Some (p s u : string) : strip_prefix p s = Some u → s = p +:+ u.
Proof.
  revert s. induction p as [|a p IH]; intros s; cbn [strip_prefix].
  - rewrite append_nil_l. congruence.
  - destruct s as [|b s]; [discriminate|].
    destruct (Ascii.eqb_spec a b) as [->|]; [|discriminate].
    intros E. rewrite append_cons. f_equal. now apply IH.
Qed.

Lemma clean_session_spec (user_id filter : string) :
  clean_session user_id filter = true →
  has_char "/" filter = false ∧ has_char "/" user_id = false ∧
  has_char "_" user_id = false.
Proof.
  unfold clean_session. rewrite !andb_true_iff, !negb_true_iff. tauto.
Qed.

(** The kind and the filter can be read back from [f"{name}_{filter_name}"]
    when the kind is one of the server's. *)
Lemma server_kind_filter_inj (n1 f1 n2 f2 : string) :
  n1 ∈ server_kinds → n2 ∈ server_kinds →
  n1 +:+ "_" +:+ f1 = n2 +:+ "_" +:+ f2 → n1 = n2 ∧ f1 = f2.
Proof.
  unfold server_kinds. rewrite !elem_of_cons, !elem_of_nil.
  intros [->|[->|[->|[]]]] [->|[->|[->|[]]]] E; cbn in E; simplify_eq; now split.
Qed.

Lemma server_kind_plain (n : string) : n ∈ server_kinds → has_char "/" n = false.
Proof.
  unfold server_kinds. rewrite !elem_of_cons, !elem_of_nil.
  intros [->|[->|[->|[]]]]; reflexivity.
Qed.

Lemma client_kind_spec (n : string) :
  client_kind n = true →
  n = "output" ∨
  ∃ image_uuid, n = "temp_jpg_" +:+ image_uuid ∧
    has_char "_" image_uuid = false ∧ has_char "/" image_uuid = false.
Proof.
  unfold client_kind. rewrite orb_true_iff. intros [E|E].
  - left. now apply String.eqb_eq.
  - right. destruct (strip_prefix "temp_jpg_" n) as [u|] eqn:Hu; [|discriminate].
    apply strip_prefix_Some in Hu. apply andb_true_iff in E as [E1 E2].
    apply negb_true_iff in E1, E2. eauto.
Qed.

(** Likewise when the kind is one of the client's. *)
Lemma client_kind_filter_inj (n1 f1 n2 f2 : string) :
  client_kind n1 = true → client_kind n2 = true →
  n1 +:+ "_" +:+ f1 = n2 +:+ "_" +:+ f2 → n1 = n2 ∧ f1 = f2.
Proof.
  intros [->|(u1 & -> & U1 & _)]%client_kind_spec [->|(u2 & -> & U2 & _)]%client_kind_spec E.
  - cbn in E. simplify_eq. now split.
  - cbn in E. discriminate E.
  - cbn in E. discriminate E.
  - rewrite !append_assoc in E. cbn in E. simplify_eq.
    match goal with
    | E' : u1 +:+ _ = u2 +:+ _ |- _ =>
        apply (split_first_sep "_" u1 u2 f1 f2 U1 U2) in E' as [-> ->]
    end.
    now split.
Qed.

Lemma client_kind_plain (n : string) : client_kind n = true → has_char "/" n = false.
Proof.
  intros [->|(u & -> & _ & U)]%client_kind_spec; [reflexivity|].
  now rewrite has_char_app, U.
Qed.

(** The file name determines its three parts when the kind and the filter
    can be read back from what comes before the identity, and the identity
    holds no underscore. *)
Lemma key_path_inj (kind : string → Prop) (p : Path) (n1 f1 i1 n2 f2 i2 : string) :
  (∀ n, kind n → has_char "/" n = false) →
  (∀ n1 f1 n2 f2, kind n1 → kind n2 →
     n1 +:+ "_" +:+ f1 = n2 +:+ "_" +:+ f2 → n1 = n2 ∧ f1 = f2) →
  kind n1 → kind n2 →
  clean_session i1 f1 = true → clean_session i2 f2 = true →
  path_div p (n1 +:+ "_" +:+ f1 +:+ "_" +:+ i1)
  = path_div p (n2 +:+ "_" +:+ f2 +:+ "_" +:+ i2) →
  (n1, f1, i1) = (n2, f2, i2).
Proof.
  intros Hplain Hinj K1 K2 (Hf1 & Hi1 & Ui1)%clean_session_spec
         (Hf2 & Hi2 & Ui2)%clean_session_spec.
  rewrite !path_div_artifact by auto.
  intros E%app_inv_head. injection E as E.
  assert (A : ∀ n f i : string,
             n +:+ "_" +:+ f +:+ "_" +:+ i = (n +:+ "_" +:+ f) +:+ String "_" i).
  { intros n f i. rewrite !append_assoc. reflexivity. }
  rewrite !A in E.
  apply split_last_sep in E as [E ->]; [|assumption..].
  apply Hinj in E as [-> ->]; auto.
Qed.

Section properties.
Context `{Common, PyFloat, FHEServerAPI, FHEClientAPI, Imaging, Net, Urllib}.
Context `{!Env}.

Lemma plain_key_spec (name filter_name id : string) :
  plain_key name filter_name id = true →
  has_char "/" name = false ∧ has_char "/" filter_name = false ∧
  has_char "/" id = false ∧ has_char "_" filter_name = false ∧
  has_char "_" id = false.
Proof.
  unfold plain_key. rewrite !andb_true_iff, !negb_true_iff. tauto.
Qed.

Lemma artifact_path_inj (p : Path) (n1 f1 i1 n2 f2 i2 : string) :
  plain_key n1 f1 i1 = true → plain_key n2 f2 i2 = true →
  path_div p (n1 +:+ "_" +:+ f1 +:+ "_" +:+ i1)
  = path_div p (n2 +:+ "_" +:+ f2 +:+ "_" +:+ i2) →
  (n1, f1, i1) = (n2, f2, i2).
Proof.
  intros (Hn1 & Hf1 & Hi1 & Uf1 & Ui1)%plain_key_spec
         (Hn2 & Hf2 & Hi2 & Uf2 & Ui2)%plain_key_spec.
  rewrite !path_div_artifact by assumption.
  intros E%app_inv_head. injection E as E.
  apply artifact_name_inj in E as (-> & -> & ->); auto.
Qed.

Lemma server_key_path_inj (n1 f1 i1 n2 f2 i2 : string) :
  server_key n1 f1 i1 = true → server_key n2 f2 i2 = true →
  get_server_file_path n1 i1 f1 = get_server_file_path n2 i2 f2 →
  (n1, f1, i1) = (n2, f2, i2).
Proof.
  unfold server_key. intros [K1%bool_decide_eq_true C1]%andb_true_iff
                            [K2%bool_decide_eq_true C2]%andb_true_iff.
  apply (key_path_inj (λ n, n ∈ server_kinds)); auto using server_kind_plain.
  intros. now apply server_kind_filter_inj.
Qed.

Lemma client_key_path_inj (n1 f1 i1 n2 f2 i2 : string) :
  client_key n1 f1 i1 = true → client_key n2 f2 i2 = true →
  get_client_file_path n1 i1 f1 = get_client_file_path n2 i2 f2 →
  (n1, f1, i1) = (n2, f2, i2).
Proof.
  unfold client_key. intros [K1 C1]%andb_true_iff [K2 C2]%andb_true_iff.
  apply (key_path_inj (λ n, client_kind n = true)); auto using client_kind_plain.
  intros. now apply client_kind_filter_inj.
Qed.

(** C1 (as amended): on the keys whose kind is one the code passes
    ([encrypted_image], [evaluation_key] and [encrypted_output] on the
    server; [output] and [temp_jpg_<uuid>] on the client), whose filter and
    identity hold no slash and whose identity holds no underscore, two
    distinct triples (kind, filter, identity) get distinct paths from
    [get_server_file_path], and from [get_client_file_path]. The filter may
    hold underscores. *)
Theorem get_file_path_injective (n1 f1 i1 n2 f2 i2 : string) :
  (n1, f1, i1) ≠ (n2, f2, i2) →
  (server_key n1 f1 i1 = true → server_key n2 f2 i2 = true →
   get_server_file_path n1 i1 f1 ≠ get_server_file_path n2 i2 f2) ∧
  (client_key n1 f1 i1 = true → client_key n2 f2 i2 = true →
   get_client_file_path n1 i1 f1 ≠ get_client_file_path n2 i2 f2).
Proof.
  intros Hne. split; intros K1 K2 E; apply Hne.
  - now apply server_key_path_inj.
  - now apply client_key_path_inj.
Qed.


(** ** The server *)



(** *** Runs that differ in the printed lines only *)

Lemma host_state_inv (w1 w2 : World) :
  host_state w1 = host_state w2 →
  files w1 = files w2 ∧ ticks w1 = ticks w2 ∧ uuids w1 = uuids w2 ∧
  fhe w1 = fhe w2 ∧ trace w1 = trace w2.
Proof. unfold host_state. intros E. injection E. tauto. Qed.

Lemma sim_bind {A B} (m1 m2 : M A) (k1 k2 : A → M B) :
  sim m1 m2 → (∀ a, sim (k1 a) (k2 a)) → sim (m1 ≫= k1) (m2 ≫= k2).
Proof.
  intros Hm Hk w1 w2 Hw. destruct (Hm w1 w2 Hw) as [Hr Hs].
  unfold mbind, M_bind. destruct (m1 w1) as [r1 w1'], (m2 w2) as [r2 w2'].
  cbn [fst snd] in Hr, Hs. subst r2. destruct r1 as [a|e].
  - now apply Hk.
  - now split.
Qed.

Lemma sim_print_l {A} (line : string) (k m : M A) :
  sim k m → sim (print line ≫= λ _, k) m.
Proof. intros Hk w1 w2 Hw. apply (Hk _ w2). exact Hw. Qed.

Lemma sim_assoc_r {A B C} (n : M C) (m : M A) (f : A → M B) (g : B → M C) :
  sim n (m ≫= λ a, f a ≫= g) → sim n ((m ≫= f) ≫= g).
Proof.
  intros Hn w1 w2 Hw. specialize (Hn w1 w2 Hw). revert Hn.
  unfold mbind, M_bind. destruct (m w2) as [[a|e] w2']; [|trivial].
  destruct (f a w2') as [[b|e] w2'']; trivial.
Qed.

Lemma sim_ret_r {A B} (n : M B) (a : A) (k : A → M B) :
  sim n (k a) → sim n (mret a ≫= k).
Proof. intros Hn. exact Hn. Qed.

(** What does not look at the host. *)
Lemma sim_lift {A} (r : Result A) : sim (lift r) (lift r).
Proof. intros w1 w2 Hw. now split. Qed.

Lemma sim_ret {A} (a : A) : sim (mret a) (mret a).
Proof. exact (sim_lift (Ok a)). Qed.

Lemma sim_index {A} (l : list A) (i : nat) : sim (index l i) (index l i).
Proof. unfold index. destruct (l !! i); [apply sim_ret|exact (sim_lift (Raise _))]. Qed.

Lemma sim_getitem {A} (d : gmap string A) (k : string) : sim (getitem d k) (getitem d k).
Proof. unfold getitem. destruct (d !! k); [apply sim_ret|exact (sim_lift (Raise _))]. Qed.

(** What reads or writes the files or the clock. *)
Ltac sim_primitive :=
  intros [f1 t1 u1 o1 s1 c1] [f2 t2 u2 o2 s2 c2] Hw;
  apply host_state_inv in Hw; cbn [files ticks uuids fhe trace] in Hw;
  destruct Hw as (-> & -> & -> & -> & ->).

Lemma sim_open_wb (p : Path) : sim (open_wb p) (open_wb p).
Proof.
  sim_primitive. unfold open_wb. destruct (open_wb_error p); now split.
Qed.

Lemma sim_write (f : Path) (b : bytes) : sim (write f b) (write f b).
Proof. sim_primitive. now split. Qed.

Lemma sim_open_rb (p : Path) : sim (open_rb p) (open_rb p).
Proof.
  sim_primitive. unfold open_rb. cbn [files]. destruct (f2 !! p); now split.
Qed.

Lemma sim_read (f : Path) : sim (read f) (read f).
Proof. sim_primitive. now split. Qed.

Lemma sim_time : sim time time.
Proof. sim_primitive. now split. Qed.

Ltac sim_step :=
  lazymatch goal with
  | |- sim (print _ ≫= _) _ => apply sim_print_l
  | |- sim _ ((_ ≫= _) ≫= _) => apply sim_assoc_r
  | |- sim _ (mret _ ≫= _) => apply sim_ret_r
  | |- sim (mret _) (mret _) => apply sim_ret
  | |- sim (_ ≫= _) (_ ≫= _) =>
      apply sim_bind;
      [ first [ apply sim_open_wb | apply sim_write | apply sim_open_rb | apply sim_read
              | apply sim_time | apply sim_index | apply sim_getitem | apply sim_lift ]
      | intros ? ]
  | |- sim (read _) (read _) => apply sim_read
  end.

(** C2: [fhe_full] answers what [send_input], [run_fhe] and [get_output]
    called in sequence with the same arguments answer (the same body and
    execution time, or the same exception), and leaves the same files, and
    the same host apart from the lines it prints. *)
Theorem fhe_full_three_calls (user_id filter : string) (uploads : list bytes) (w : World) :
  fst (fhe_full user_id filter uploads w) = fst (three_calls user_id filter uploads w) ∧
  host_state (snd (fhe_full user_id filter uploads w))
  = host_state (snd (three_calls user_id filter uploads w)).
Proof.
  enough (Hsim : sim (fhe_full user_id filter uploads) (three_calls user_id filter uploads))
    by now apply Hsim.
  unfold fhe_full, three_calls, send_input, run_fhe, get_output. cbv zeta.
  repeat sim_step.
Qed.

(** *** The stages on the files *)

(** The first component of a segment that starts with two characters
    other than the slash starts with them. *)
Lemma split_at_cons (sep c : ascii) (s : string) :
  Ascii.eqb c sep = false → ∃ w ws, split_at sep (String c s) = String c w :: ws.
Proof.
  intros Hc. cbn [split_at]. rewrite Hc. destruct (split_at sep s) as [|w ws]; eauto.
Qed.

Lemma parse_parts_head (c d : ascii) (s : string) :
  Ascii.eqb c "/" = false → Ascii.eqb d "/" = false →
  ∃ w ws, parse_parts (String c (String d s)) = String c (String d w) :: ws.
Proof.
  intros Hc Hd. unfold parse_parts.
  destruct (split_at_cons "/" d s Hd) as (w & ws & E).
  change (split_at "/" (String c (String d s)))
    with (if Ascii.eqb c "/" then "" :: split_at "/" (String d s)
          else match split_at "/" (String d s) with
               | [] => [String c ""]
               | w :: ws => String c w :: ws
               end).
  rewrite Hc, E.
  rewrite filter_cons, decide_True by (split; discriminate). eauto.
Qed.

(** The image and the key of a session never share a location. *)
Lemma image_key_paths_differ (user_id filter : string) :
  get_server_file_path "encrypted_image" user_id filter
  ≠ get_server_file_path "evaluation_key" user_id filter.
Proof.
  unfold get_server_file_path, path_div.
  change (root_of ("encrypted_image" +:+ "_" +:+ filter +:+ "_" +:+ user_id)) with (@None string).
  change (root_of ("evaluation_key" +:+ "_" +:+ filter +:+ "_" +:+ user_id)) with (@None string).
  intros E%app_inv_head. revert E.
  destruct (parse_parts_head "e" "n"
              ("crypted_image" +:+ "_" +:+ filter +:+ "_" +:+ user_id) eq_refl eq_refl)
    as (w1 & ws1 & E1).
  destruct (parse_parts_head "e" "v"
              ("aluation_key" +:+ "_" +:+ filter +:+ "_" +:+ user_id) eq_refl eq_refl)
    as (w2 & ws2 & E2).
  change ("encrypted_image" +:+ "_" +:+ filter +:+ "_" +:+ user_id)
    with (String "e" (String "n" ("crypted_image" +:+ "_" +:+ filter +:+ "_" +:+ user_id))).
  change ("evaluation_key" +:+ "_" +:+ filter +:+ "_" +:+ user_id)
    with (String "e" (String "v" ("aluation_key" +:+ "_" +:+ filter +:+ "_" +:+ user_id))).
  rewrite E1, E2. discriminate.
Qed.

Lemma set_files_set_files (f g : gmap Path bytes) (w : World) :
  set_files f (set_files g w) = set_files f w.
Proof. reflexivity. Qed.

(** What a submit with two uploads does where both locations open. *)
Lemma send_input_run (user_id filter : string) (image key : bytes) (more : list bytes)
    (w : World) :
  open_wb_error (get_server_file_path "encrypted_image" user_id filter) = None →
  open_wb_error (get_server_file_path "evaluation_key" user_id filter) = None →
  send_input user_id filter (image :: key :: more) w
  = (Ok tt,
     set_files
       (<[get_server_file_path "evaluation_key" user_id filter := key]>
          (<[get_server_file_path "encrypted_image" user_id filter := image]> (files w)))
       w).
Proof.
  intros Hi Hk. pose proof (image_key_paths_differ user_id filter) as Hne.
  unfold send_input, mbind, M_bind, open_wb. rewrite Hi, Hk.
  unfold index, write, mret, M_ret, set_files. cbn [lookup list_lookup files].
  f_equal. f_equal.
  rewrite lookup_insert_ne, lookup_insert_eq by congruence.
  rewrite lookup_insert_ne, lookup_insert_eq by congruence.
  change (default [] (Some []) ++ key) with key.
  change (default [] (Some []) ++ image) with image.
  apply map_eq; intros p. rewrite !lookup_insert. repeat case_decide; reflexivity.
Qed.

(** What a compute does on a session whose two inputs are stored. *)
Lemma run_fhe_run (user_id filter : string) (image key : bytes) (w : World) :
  files w !! get_server_file_path "encrypted_image" user_id filter = Some image →
  files w !! get_server_file_path "evaluation_key" user_id filter = Some key →
  run_fhe user_id filter w
  = match FHE_SERVERS !! filter with
    | None => (Raise (KeyError filter), w)
    | Some fhe_server =>
        match FHEServer_run fhe_server image key with
        | None =>
            (Raise (External "FHEServer.run"),
             mkWorld (files w) (S (ticks w)) (uuids w) (stdout w) (fhe w) (trace w))
        | Some output =>
            let w2 :=
              mkWorld (files w) (S (S (ticks w))) (uuids w) (stdout w) (fhe w) (trace w) in
            match open_wb_error (get_server_file_path "encrypted_output" user_id filter) with
            | Some errno =>
                (Raise (OSError errno (get_server_file_path "encrypted_output" user_id filter)),
                 w2)
            | None =>
                (Ok (float_round (float_sub (clock (S (ticks w))) (clock (ticks w))) 2),
                 set_files
                   (<[get_server_file_path "encrypted_output" user_id filter := output]>
                      (files w)) w2)
            end
        end
    end.
Proof.
  intros Hi Hk. unfold run_fhe, mbind, M_bind, open_rb, read. rewrite Hi, Hk.
  cbn [files]. rewrite Hi, Hk.
  unfold getitem. destruct (FHE_SERVERS !! filter) as [fhe_server|]; [|reflexivity].
  unfold mret, M_ret, time, lift. cbn [files ticks uuids stdout fhe trace default from_option id].
  destruct (FHEServer_run fhe_server image key) as [output|]; [|reflexivity].
  cbn [ext]. unfold open_wb. cbn [files ticks uuids stdout fhe trace].
  destruct (open_wb_error _); [reflexivity|].
  unfold write, set_files. cbn [files ticks uuids stdout fhe trace].
  now rewrite lookup_insert_eq, insert_insert_eq.
Qed.


(** C5: a second submit for the same key overwrites the first wholly: the
    two submits leave what the second alone leaves, the stored image and
    key are the second payload, and a compute that follows runs the engine
    on the second payload and stores its output. *)
Theorem second_submit_wins (user_id filter : string)
    (image1 key1 image2 key2 : bytes) (more1 more2 : list bytes) (w : World) :
  open_wb_error (get_server_file_path "encrypted_image" user_id filter) = None →
  open_wb_error (get_server_file_path "evaluation_key" user_id filter) = None →
  let twice :=
    send_input user_id filter (image1 :: key1 :: more1) ≫= λ _,
    send_input user_id filter (image2 :: key2 :: more2) in
  twice w = send_input user_id filter (image2 :: key2 :: more2) w ∧
  fst (twice w) = Ok tt ∧
  files (snd (twice w)) !! get_server_file_path "encrypted_image" user_id filter
  = Some image2 ∧
  files (snd (twice w)) !! get_server_file_path "evaluation_key" user_id filter
  = Some key2 ∧
  ∀ fhe_server,
    FHE_SERVERS !! filter = Some fhe_server →
    match FHEServer_run fhe_server image2 key2 with
    | None => fst (run_fhe user_id filter (snd (twice w))) = Raise (External "FHEServer.run")
    | Some output =>
        open_wb_error (get_server_file_path "encrypted_output" user_id filter) = None →
        (∃ elapsed, fst (run_fhe user_id filter (snd (twice w))) = Ok elapsed) ∧
        files (snd (run_fhe user_id filter (snd (twice w))))
          !! get_server_file_path "encrypted_output" user_id filter = Some output
    end.
Proof.
  intros Hi Hk twice. pose proof (image_key_paths_differ user_id filter) as Hne.
  assert (Htwice : twice w = send_input user_id filter (image2 :: key2 :: more2) w).
  { unfold twice, mbind, M_bind. rewrite (send_input_run _ _ image1 key1 more1 w Hi Hk).
    rewrite !send_input_run by assumption. rewrite set_files_set_files.
    f_equal. f_equal. unfold set_files. cbn [files].
    apply map_eq; intros p. rewrite !lookup_insert. repeat case_decide; reflexivity. }
  rewrite Htwice, send_input_run by assumption. cbn [fst snd].
  assert (Hi2 : files (set_files
      (<[get_server_file_path "evaluation_key" user_id filter := key2]>
         (<[get_server_file_path "encrypted_image" user_id filter := image2]> (files w))) w)
      !! get_server_file_path "encrypted_image" user_id filter = Some image2).
  { cbn [set_files files]. now rewrite lookup_insert_ne, lookup_insert_eq by congruence. }
  assert (Hk2 : files (set_files
      (<[get_server_file_path "evaluation_key" user_id filter := key2]>
         (<[get_server_file_path "encrypted_image" user_id filter := image2]> (files w))) w)
      !! get_server_file_path "evaluation_key" user_id filter = Some key2).
  { cbn [set_files files]. now rewrite lookup_insert_eq. }
  repeat split; try assumption.
  intros fhe_server Hs. rewrite (run_fhe_run _ _ _ _ _ Hi2 Hk2), Hs.
  destruct (FHEServer_run fhe_server image2 key2) as [output|]; [|reflexivity].
  intros Ho. cbv zeta. rewrite Ho. cbn [fst snd]. split; [eauto|].
  cbn [set_files files]. now rewrite lookup_insert_eq.
Qed.

(** C9: [send_input] never looks at the registry: it never raises
    [KeyError], whatever the filter, the uploads and the host; and for
    every filter, among [AVAILABLE_FILTERS] or not, a submit with two
    uploads succeeds where both locations open, and stores the first
    upload as the image and the second as the key. *)
Theorem send_input_any_filter (user_id filter : string) (w : World) :
  (∀ uploads k, fst (send_input user_id filter uploads w) ≠ Raise (KeyError k)) ∧
  (open_wb_error (get_server_file_path "encrypted_image" user_id filter) = None →
   open_wb_error (get_server_file_path "evaluation_key" user_id filter) = None →
   ∀ image key more,
     fst (send_input user_id filter (image :: key :: more) w) = Ok tt ∧
     files (snd (send_input user_id filter (image :: key :: more) w))
       !! get_server_file_path "encrypted_image" user_id filter = Some image ∧
     files (snd (send_input user_id filter (image :: key :: more) w))
       !! get_server_file_path "evaluation_key" user_id filter = Some key).
Proof.
  split.
  - intros uploads k. unfold send_input, mbind, M_bind, open_wb, index, write, mret, M_ret, raise.
    destruct (open_wb_error (get_server_file_path "encrypted_image" user_id filter));
      [discriminate|].
    destruct (open_wb_error (get_server_file_path "evaluation_key" user_id filter));
      [discriminate|].
    destruct (uploads !! 0); [|discriminate].
    destruct (uploads !! 1); discriminate.
  - intros Hi Hk image key more. rewrite send_input_run by assumption.
    pose proof (image_key_paths_differ user_id filter) as Hne.
    cbn [fst snd set_files files]. split; [reflexivity|].
    split; [now rewrite lookup_insert_ne, lookup_insert_eq by congruence|].
    now rewrite lookup_insert_eq.
Qed.

(** ** The client *)

(** *** Runs, step by step *)

Lemma wp_bind {A B} (m : M A) (k : A → M B) (w : World) (Q : Result B → World → Prop) :
  wp m w (λ r w', match r with
                  | Ok a => wp (k a) w' Q
                  | Raise e => Q (Raise e) w'
                  end) →
  wp (m ≫= k) w Q.
Proof.
  unfold wp, mbind, M_bind. destruct (m w) as [[a|e] w']; trivial.
Qed.

(** The calls since [w] of a host whose trace extends that of [w]. *)
Lemma calls_since_app (w w' : World) (l : list Call) :
  trace w' = trace w ++ l → calls_since w w' = l.
Proof. unfold calls_since. intros ->. apply drop_app_length. Qed.

Lemma wp_ret {A} (a : A) (w : World) (Q : Result A → World → Prop) :
  Q (Ok a) w → wp (mret a) w Q.
Proof. trivial. Qed.

Lemma wp_lift {A} (r : Result A) (w : World) (Q : Result A → World → Prop) :
  Q r w → wp (lift r) w Q.
Proof. trivial. Qed.

Lemma wp_assert (cond : bool) (msg : string) (w : World) (Q : Result unit → World → Prop) :
  (if cond then Q (Ok tt) w else Q (Raise (AssertionError msg)) w) →
  wp (assert_ cond msg) w Q.
Proof. unfold assert_. now destruct cond. Qed.

Lemma wp_float (s : string) (w : World) (Q : Result float → World → Prop) :
  match float_of_str s with
  | Some x => Q (Ok x) w
  | None => Q (Raise (ValueError ("could not convert string to float: " +:+ s))) w
  end →
  wp (float_ s) w Q.
Proof. unfold float_. now destruct (float_of_str s). Qed.

Lemma wp_uuid (w : World) (Q : Result string → World → Prop) :
  Q (Ok (uuid4 (uuids w)))
    (mkWorld (files w) (ticks w) (S (uuids w)) (stdout w) (fhe w) (trace w)) →
  wp uuid w Q.
Proof. trivial. Qed.

Lemma wp_open_wb (p : Path) (w : World) (Q : Result Path → World → Prop) :
  match open_wb_error p with
  | Some errno => Q (Raise (OSError errno p)) w
  | None =>
      Q (Ok p) (mkWorld (<[p := []]> (files w)) (ticks w) (uuids w) (stdout w) (fhe w)
                  (trace w))
  end →
  wp (open_wb p) w Q.
Proof. unfold wp, open_wb. now destruct (open_wb_error p). Qed.

Lemma wp_write (f : Path) (b : bytes) (w : World) (Q : Result unit → World → Prop) :
  Q (Ok tt)
    (mkWorld (<[f := default [] (files w !! f) ++ b]> (files w)) (ticks w) (uuids w)
       (stdout w) (fhe w) (trace w)) →
  wp (write f b) w Q.
Proof. trivial. Qed.

Lemma wp_path_exists (p : Path) (w : World) (Q : Result bool → World → Prop) :
  Q (Ok (bool_decide (is_Some (files w !! p)))) w → wp (path_exists p) w Q.
Proof. trivial. Qed.

Lemma wp_remove (p : Path) (w : World) (Q : Result unit → World → Prop) :
  Q (Ok tt)
    (mkWorld (delete p (files w)) (ticks w) (uuids w) (stdout w) (fhe w) (trace w)) →
  wp (remove p) w Q.
Proof. trivial. Qed.

Lemma wp_raise {A} (e : Exn) (w : World) (Q : Result A → World → Prop) :
  Q (Raise e) w → wp (raise e) w Q.
Proof. trivial. Qed.

Lemma wp_open_rb (p : Path) (w : World) (Q : Result Path → World → Prop) :
  match files w !! p with
  | Some _ => Q (Ok p) w
  | None => Q (Raise (absent_error p)) w
  end →
  wp (open_rb p) w Q.
Proof. unfold wp, open_rb. now destruct (files w !! p). Qed.

Lemma wp_read (f : Path) (w : World) (Q : Result bytes → World → Prop) :
  Q (Ok (default [] (files w !! f))) w → wp (read f) w Q.
Proof. trivial. Qed.

Lemma wp_net_call (name : string) (call : option HTTPResponse → Call)
    (r : option HTTPResponse) (w : World) (Q : Result HTTPResponse → World → Prop) :
  Q (ext name r)
    (mkWorld (files w) (ticks w) (uuids w) (stdout w) (fhe w) (trace w ++ [call r])) →
  wp (net_call name call r) w Q.
Proof. trivial. Qed.

Lemma wp_fhe_call {A} (name : string) (call : option A → Call)
    (method : FHEState → option A * FHEState) (w : World) (Q : Result A → World → Prop) :
  Q (ext name (fst (method (fhe w))))
    (mkWorld (files w) (ticks w) (uuids w) (stdout w) (snd (method (fhe w)))
       (trace w ++ [call (fst (method (fhe w)))])) →
  wp (fhe_call name call method) w Q.
Proof. unfold wp, fhe_call. now destruct (method (fhe w)). Qed.

(** Runs the next statement of a tool. *)
Ltac wp_simpl :=
  cbn beta iota zeta delta [fst snd files ticks uuids stdout fhe trace ext].

Ltac wp_step :=
  lazymatch goal with
  | |- wp (_ ≫= _) _ _ => apply wp_bind
  | |- wp (download_image _) _ _ => unfold download_image
  | |- wp (Image_open _) _ _ => unfold Image_open
  | |- wp (Image_save _ _) _ _ => unfold Image_save
  | |- wp (get _) _ _ => unfold get
  | |- wp (post _ _ _) _ _ => unfold post
  | |- wp (new_FHEClient _ _ _) _ _ => unfold new_FHEClient
  | |- wp (generate_private_and_evaluation_keys _) _ _ =>
      unfold generate_private_and_evaluation_keys
  | |- wp (encrypt_serialize _ _) _ _ => unfold encrypt_serialize
  | |- wp (get_serialized_evaluation_keys _) _ _ => unfold get_serialized_evaluation_keys
  | |- wp (deserialize_decrypt_post_process _ _) _ _ =>
      unfold deserialize_decrypt_post_process
  | |- wp (net_call _ _ _) _ _ => apply wp_net_call
  | |- wp (fhe_call _ _ _) _ _ => apply wp_fhe_call
  | |- wp uuid _ _ => apply wp_uuid
  | |- wp (open_wb _) _ _ => apply wp_open_wb
  | |- wp (open_rb _) _ _ => apply wp_open_rb
  | |- wp (read _) _ _ => apply wp_read
  | |- wp (write _ _) _ _ => apply wp_write
  | |- wp (path_exists _) _ _ => apply wp_path_exists
  | |- wp (remove _) _ _ => apply wp_remove
  | |- wp (raise _) _ _ => apply wp_raise
  | |- wp (lift _) _ _ => apply wp_lift
  | |- wp (float_ _) _ _ => apply wp_float
  | |- wp (mret _) _ _ => apply wp_ret
  | |- wp (match ?x with _ => _ end) _ _ => destruct x eqn:?
  | |- match ext _ (fst ?x) with _ => _ end => destruct x as [[?|] ?] eqn:?
  | |- match ext _ ?x with _ => _ end => destruct x eqn:?
  | |- match ?x with _ => _ end => destruct x eqn:?
  end; wp_simpl.

(** Reads a membership in the calls of a run off the trace. *)
Ltac calls_in H :=
  erewrite calls_since_app in H by (cbn [trace]; rewrite <- ?app_assoc; reflexivity);
  cbn [app] in H;
  repeat (apply elem_of_cons in H as [H|H]; [try discriminate H|]);
  try (apply elem_of_nil in H; destruct H).

(** *** The image before encryption *)

Lemma preprocess_rgb_100 (image0 : Image) :
  let image1 :=
    if decide (mode image0 ≠ "RGB") then Image_convert image0 "RGB" else image0 in
  let image2 :=
    if decide (size image1 ≠ (100, 100)) then Image_resize image1 (100, 100) else image1 in
  mode image2 = "RGB" ∧ size image2 = (100, 100) ∧
  shape (numpy_array image2) = [100; 100; 3].
Proof.
  intros image1 image2.
  assert (Hm1 : mode image1 = "RGB").
  { subst image1. destruct (decide (mode image0 ≠ "RGB")) as [|Hn]; [reflexivity|].
    now destruct (decide (mode image0 = "RGB")). }
  assert (Hm2 : mode image2 = "RGB").
  { subst image2. now destruct (decide (size image1 ≠ (100, 100))). }
  assert (Hs2 : size image2 = (100, 100)).
  { subst image2. destruct (decide (size image1 ≠ (100, 100))) as [|Hn]; [reflexivity|].
    now destruct (decide (size image1 = (100, 100))). }
  repeat split; try assumption.
  unfold numpy_array. now rewrite Hs2, Hm2.
Qed.

(** Passes the shape check of a run that has decoded its image. *)
Ltac wp_shape_check :=
  let Hm := fresh "Hmode" in
  let Hs := fresh "Hsize" in
  let Hsh := fresh "Hshape" in
  let image := fresh "image" in
  match goal with
  | i : Image |- _ => destruct (preprocess_rgb_100 i) as (Hm & Hs & Hsh)
  end;
  cbv zeta in Hm, Hs, Hsh;
  set (image := match decide (size _ ≠ (100, 100)) with left _ => _ | right _ => _ end) in *;
  clearbody image;
  apply wp_assert; rewrite (bool_decide_eq_true_2 _ Hsh).

(** C8: in every run of [process_image_with_fhe] the shape check passes
    (the job never raises its [AssertionError]); whatever is handed to
    [encrypt_serialize] is the array of the image decoded from the body of
    the answer to the GET, converted to RGB unless it is RGB and resized to
    100 x 100 unless it has that size, an image of mode RGB and size
    100 x 100 whose array has shape (100, 100, 3); and a job that returns
    has handed such an array to [encrypt_serialize]. *)
Theorem job_shape_check (image_url filter_name : string) (w : World) :
  (∀ msg, fst (process_image_with_fhe image_url filter_name w) ≠ Raise (AssertionError msg)) ∧
  (∀ client a,
     Call_encrypt_serialize client a
       ∈ calls_since w (snd (process_image_with_fhe image_url filter_name w)) →
     ∃ downloaded input_image,
       requests_get image_url = Some downloaded ∧
       Image_decode (r_content downloaded) = Some input_image ∧
       mode (job_input_image input_image) = "RGB" ∧
       size (job_input_image input_image) = (100, 100) ∧
       a = numpy_array (job_input_image input_image) ∧
       shape a = [100; 100; 3]) ∧
  (∀ job,
     fst (process_image_with_fhe image_url filter_name w) = Ok job →
     ∃ client a,
       Call_encrypt_serialize client a
         ∈ calls_since w (snd (process_image_with_fhe image_url filter_name w))).
Proof.
  change (wp (process_image_with_fhe image_url filter_name) w
    (λ r w',
       (∀ msg, r ≠ Raise (AssertionError msg)) ∧
       (∀ client a,
          Call_encrypt_serialize client a ∈ calls_since w w' →
          ∃ downloaded input_image,
            requests_get image_url = Some downloaded ∧
            Image_decode (r_content downloaded) = Some input_image ∧
            mode (job_input_image input_image) = "RGB" ∧
            size (job_input_image input_image) = (100, 100) ∧
            a = numpy_array (job_input_image input_image) ∧
            shape a = [100; 100; 3]) ∧
       (∀ job, r = Ok job →
          ∃ client a, Call_encrypt_serialize client a ∈ calls_since w w'))).
  unfold process_image_with_fhe.
  repeat wp_step.
  all: try match goal with
           | E : <[?p := _]> _ !! ?p = None |- _ =>
               rewrite lookup_insert_eq in E; discriminate E
           end.
  all: try (split; [discriminate|]; split;
            [intros client a Hin; calls_in Hin; fail|intros job E; discriminate E]).
  match goal with
  | i : Image |- _ => destruct (preprocess_rgb_100 i) as (Hmode & Hsize & Hshape)
  end.
  cbv zeta in Hmode, Hsize, Hshape.
  apply wp_assert. rewrite (bool_decide_eq_true_2 _ Hshape).
  repeat wp_step.
  all: match goal with
       | E : Image_decode _ = Some _ |- _ =>
           rewrite lookup_insert_eq in E; cbn [default from_option id] in E;
           rewrite lookup_insert_eq in E; cbn [default from_option id app] in E
       end.
  all: split; [discriminate|]; split.
  all: try (intros client a Hin; calls_in Hin; injection Hin as -> ->;
            do 2 eexists; repeat split; eassumption).
  all: intros job E; try discriminate E.
  all: do 2 eexists; erewrite calls_since_app
         by (cbn [trace]; rewrite <- ?app_assoc; reflexivity);
       apply (list_elem_of_lookup_2 _ 3); reflexivity.
Qed.

(** C10: in a run of [process_image_with_fhe] whose POST was answered
    without an [X-FHE-Execution-Time] header, nothing is raised for the
    missing header: the job returns [execution_time] [float(0)] and
    [status] ["success"], unless the file for the output cannot be opened
    (the one failure left after the answer). *)
Theorem missing_header_defaults (image_url filter_name : string) (w : World)
    (url : string) (data : list (string * string))
    (uploads : list (string * (string * bytes * string))) (response : HTTPResponse) :
  Call_post url data uploads (Some response)
    ∈ calls_since w (snd (process_image_with_fhe image_url filter_name w)) →
  r_headers response !! lower "X-FHE-Execution-Time" = None →
  ∃ user_id output_id,
    match open_wb_error (get_client_file_path "output" output_id filter_name) with
    | None =>
        fst (process_image_with_fhe image_url filter_name w)
        = Ok (mkJobResult user_id filter_name (float_of_int 0) output_id "success")
    | Some errno =>
        fst (process_image_with_fhe image_url filter_name w)
        = Raise (OSError errno (get_client_file_path "output" output_id filter_name))
    end.
Proof.
  change (wp (process_image_with_fhe image_url filter_name) w
    (λ r w',
       Call_post url data uploads (Some response) ∈ calls_since w w' →
       r_headers response !! lower "X-FHE-Execution-Time" = None →
       ∃ user_id output_id,
         match open_wb_error (get_client_file_path "output" output_id filter_name) with
         | None =>
             r = Ok (mkJobResult user_id filter_name (float_of_int 0) output_id "success")
         | Some errno =>
             r = Raise (OSError errno (get_client_file_path "output" output_id filter_name))
         end)).
  unfold process_image_with_fhe.
  repeat wp_step.
  all: try (intros Hin Hh; calls_in Hin; fail).
  wp_shape_check.
  repeat wp_step.
  all: intros Hin Hh; calls_in Hin.
  all: injection Hin as -> -> -> ->.
  all: try congruence.
  all: exists (uuid4 (S (uuids w))), (uuid4 (S (S (uuids w)))).
  all: match goal with E : open_wb_error _ = _ |- _ => rewrite E end; reflexivity.
Qed.

(** *** A job, then its decryption *)

Lemma decrypt_output_image_calls (user_id filter_name output_id : string)
    (encrypted_output : bytes) (w : World) :
  has_char "%" filter_name = false →
  files w !! get_client_file_path "output" output_id filter_name = Some encrypted_output →
  calls_since w (snd (decrypt_output_image user_id filter_name output_id w))
  = decrypt_calls (path_div FILTERS_PATH (filter_name +:+ "/deployment")) filter_name
      (path_div KEYS_PATH (filter_name +:+ "_" +:+ user_id)) encrypted_output (fhe w).
Proof.
  intros Hf Hfile.
  change (wp (decrypt_output_image user_id filter_name output_id) w
    (λ _ w',
       calls_since w w'
       = decrypt_calls (path_div FILTERS_PATH (filter_name +:+ "/deployment")) filter_name
           (path_div KEYS_PATH (filter_name +:+ "_" +:+ user_id)) encrypted_output (fhe w))).
  unfold decrypt_output_image, decrypt_calls. rewrite (unquote_plain _ Hf). cbv zeta.
  repeat wp_step.
  all: try discriminate Hfile.
  all: try (injection Hfile as ->).
  all: erewrite calls_since_app by (cbn [trace]; rewrite <- ?app_assoc; reflexivity);
    cbn [app];
    repeat match goal with E : files _ !! _ = Some _ |- _ => rewrite E end;
    cbn [default from_option id]; reflexivity.
Qed.

(** C6 (as amended): after a job on a filter name that holds no ['%'],
    [decrypt_output_image] on the job's identifiers makes exactly these
    calls to the client library: it builds its client on the deployment
    and the key directory the job built its own on; where that returns a
    client, it generates keys on it, loading none; and where key generation
    returns, it decrypts the bytes the job stored as its output, those of
    the server's answer. *)
Theorem decrypt_after_job (image_url filter_name : string) (w w1 : World) (job : JobResult) :
  has_char "%" filter_name = false →
  process_image_with_fhe image_url filter_name w = (Ok job, w1) →
  let path_dir := path_div FILTERS_PATH (filter_name +:+ "/deployment") in
  let key_dir := path_div KEYS_PATH (filter_name +:+ "_" +:+ job_user_id job) in
  ∃ client downloaded a data uploads response,
    calls_since w w1
    = [Call_get image_url (Some downloaded);
       Call_FHEClient path_dir filter_name key_dir (Some client);
       Call_generate_private_and_evaluation_keys client;
       Call_encrypt_serialize client a;
       Call_get_serialized_evaluation_keys client;
       Call_post (FHE_SERVER_URL +:+ "/fhe_full") data uploads (Some response)] ∧
    files w1 !! get_client_file_path "output" (job_output_id job) filter_name
    = Some (r_content response) ∧
    calls_since w1
      (snd (decrypt_output_image (job_user_id job) filter_name (job_output_id job) w1))
    = decrypt_calls path_dir filter_name key_dir (r_content response) (fhe w1).
Proof.
  intros Hf Hjob. cbv zeta.
  enough (Hwp : wp (process_image_with_fhe image_url filter_name) w
    (λ r w1, ∀ job, r = Ok job →
       ∃ client downloaded a data uploads response,
         calls_since w w1
         = [Call_get image_url (Some downloaded);
            Call_FHEClient (path_div FILTERS_PATH (filter_name +:+ "/deployment"))
              filter_name (path_div KEYS_PATH (filter_name +:+ "_" +:+ job_user_id job))
              (Some client);
            Call_generate_private_and_evaluation_keys client;
            Call_encrypt_serialize client a;
            Call_get_serialized_evaluation_keys client;
            Call_post (FHE_SERVER_URL +:+ "/fhe_full") data uploads (Some response)] ∧
         files w1 !! get_client_file_path "output" (job_output_id job) filter_name
         = Some (r_content response) ∧
         calls_since w1
           (snd (decrypt_output_image (job_user_id job) filter_name (job_output_id job) w1))
         = decrypt_calls (path_div FILTERS_PATH (filter_name +:+ "/deployment")) filter_name
             (path_div KEYS_PATH (filter_name +:+ "_" +:+ job_user_id job))
             (r_content response) (fhe w1))).
  { unfold wp in Hwp. rewrite Hjob in Hwp. exact (Hwp job eq_refl). }
  clear Hjob job w1. unfold process_image_with_fhe.
  repeat wp_step.
  all: try (intros job E; discriminate E).
  wp_shape_check.
  repeat wp_step.
  all: try (intros job E; discriminate E).
  all: intros job E; injection E as <-; cbn [job_user_id job_output_id].
  all: do 6 eexists; split;
    [apply calls_since_app; cbn [trace]; rewrite <- ?app_assoc; reflexivity|].
  all: assert (Hfile : ∀ (m : gmap Path bytes) p b,
                 <[p := default [] (<[p := []]> m !! p) ++ b]> (<[p := []]> m) !! p = Some b)
    by (intros m p b; now rewrite lookup_insert_eq, lookup_insert_eq).
  all: split; [apply Hfile|].
  all: match goal with
       | |- calls_since ?w1 (snd (decrypt_output_image ?u ?f ?o ?w1)) = decrypt_calls _ _ _ ?b _ =>
           apply (decrypt_output_image_calls u f o b w1 Hf); cbn [files]; apply Hfile
       end.
Qed.

(** * Further properties of the two files *)

(** ** The registry *)

Lemma fold_insert_lookup {A} (g : string → A) (l : list string)
    (d : gmap string A) (k : string) :
  fold_left (λ d f, <[f := g f]> d) l d !! k
  = if decide (k ∈ l) then Some (g k) else d !! k.
Proof.
  revert d. induction l as [|f l IH]; intros d; cbn [fold_left].
  - rewrite decide_False by apply not_elem_of_nil. reflexivity.
  - rewrite IH. destruct (decide (k ∈ l)) as [Hin|Hin].
    + rewrite decide_True by (now right). reflexivity.
    + destruct (decide (k = f)) as [->|Hne].
      * rewrite decide_True by left. now rewrite lookup_insert_eq.
      * rewrite decide_False by (rewrite elem_of_cons; tauto).
        now rewrite lookup_insert_ne by congruence.
Qed.

Lemma FHE_SERVERS_lookup (filter : string) :
  FHE_SERVERS !! filter
  = if decide (filter ∈ AVAILABLE_FILTERS)
    then Some (FHEServer_load (path_div FILTERS_PATH (filter +:+ "/deployment")))
    else None.
Proof.
  unfold FHE_SERVERS.
  rewrite (fold_insert_lookup
             (λ f, FHEServer_load (path_div FILTERS_PATH (f +:+ "/deployment")))).
  now rewrite lookup_empty.
Qed.

(** X1: the registry built at import holds an engine for a filter exactly
    when the filter is among [AVAILABLE_FILTERS], and the engine is the one
    loaded from that filter's own deployment directory, also when the list
    names a filter twice. *)
Theorem FHE_SERVERS_engine (filter : string) (fhe_server : FHEServer) :
  FHE_SERVERS !! filter = Some fhe_server ↔
  filter ∈ AVAILABLE_FILTERS ∧
  fhe_server = FHEServer_load (path_div FILTERS_PATH (filter +:+ "/deployment")).
Proof.
  rewrite FHE_SERVERS_lookup. destruct (decide (filter ∈ AVAILABLE_FILTERS)).
  - split; [intros [= <-]; now split|intros [_ ->]; reflexivity].
  - split; [discriminate|tauto].
Qed.

(** ** The locations of a session *)

Lemma split_at_String (sep c : ascii) (s : string) :
  split_at sep (String c s)
  = if Ascii.eqb c sep then "" :: split_at sep s
    else match split_at sep s with
         | [] => [String c ""]
         | w :: ws => String c w :: ws
         end.
Proof. reflexivity. Qed.

Lemma split_at_nonempty (sep : ascii) (s : string) : ∃ w ws, split_at sep s = w :: ws.
Proof.
  destruct s as [|c s]; [cbn; eauto|]. rewrite split_at_String.
  destruct (Ascii.eqb c sep); [eauto|]. destruct (split_at sep s); eauto.
Qed.

(** The first component of a string starts with whatever the string
    starts with up to its first slash. *)
Lemma split_at_prefix (pre s : string) :
  has_char "/" pre = false → ∃ w ws, split_at "/" (pre +:+ s) = (pre +:+ w) :: ws.
Proof.
  induction pre as [|c pre IH]; intros Hp.
  - rewrite append_nil_l. apply split_at_nonempty.
  - cbn [has_char] in Hp. destruct (Ascii.eqb c "/") eqn:Hc; [discriminate|].
    destruct (IH Hp) as (w & ws & E).
    rewrite append_cons, split_at_String, Hc, E. exists w, ws. now rewrite append_cons.
Qed.

Lemma parse_parts_prefix (c d : ascii) (pre s : string) :
  has_char "/" (String c (String d pre)) = false →
  ∃ w ws, parse_parts (String c (String d pre) +:+ s) = (String c (String d pre) +:+ w) :: ws.
Proof.
  intros Hp. destruct (split_at_prefix _ s Hp) as (w & ws & E).
  unfold parse_parts. rewrite E. rewrite filter_cons, decide_True; [eauto|].
  rewrite !append_cons. split; discriminate.
Qed.

(** The output of a session never shares its location with the image or
    with the key. *)
Lemma output_image_paths_differ (user_id filter : string) :
  get_server_file_path "encrypted_output" user_id filter
  ≠ get_server_file_path "encrypted_image" user_id filter.
Proof.
  unfold get_server_file_path, path_div.
  change (root_of ("encrypted_output" +:+ "_" +:+ filter +:+ "_" +:+ user_id))
    with (@None string).
  change (root_of ("encrypted_image" +:+ "_" +:+ filter +:+ "_" +:+ user_id))
    with (@None string).
  intros E%app_inv_head. revert E.
  destruct (parse_parts_prefix "e" "n" "crypted_o"
              ("utput" +:+ "_" +:+ filter +:+ "_" +:+ user_id) eq_refl)
    as (w1 & ws1 & E1).
  destruct (parse_parts_prefix "e" "n" "crypted_i"
              ("mage" +:+ "_" +:+ filter +:+ "_" +:+ user_id) eq_refl)
    as (w2 & ws2 & E2).
  change ("encrypted_output" +:+ "_" +:+ filter +:+ "_" +:+ user_id)
    with ("encrypted_o" +:+ "utput" +:+ "_" +:+ filter +:+ "_" +:+ user_id).
  change ("encrypted_image" +:+ "_" +:+ filter +:+ "_" +:+ user_id)
    with ("encrypted_i" +:+ "mage" +:+ "_" +:+ filter +:+ "_" +:+ user_id).
  rewrite E1, E2. rewrite !append_cons. discriminate.
Qed.

Lemma output_key_paths_differ (user_id filter : string) :
  get_server_file_path "encrypted_output" user_id filter
  ≠ get_server_file_path "evaluation_key" user_id filter.
Proof.
  unfold get_server_file_path, path_div.
  change (root_of ("encrypted_output" +:+ "_" +:+ filter +:+ "_" +:+ user_id))
    with (@None string).
  change (root_of ("evaluation_key" +:+ "_" +:+ filter +:+ "_" +:+ user_id))
    with (@None string).
  intros E%app_inv_head. revert E.
  destruct (parse_parts_head "e" "n"
              ("crypted_output" +:+ "_" +:+ filter +:+ "_" +:+ user_id) eq_refl eq_refl)
    as (w1 & ws1 & E1).
  destruct (parse_parts_head "e" "v"
              ("aluation_key" +:+ "_" +:+ filter +:+ "_" +:+ user_id) eq_refl eq_refl)
    as (w2 & ws2 & E2).
  change ("encrypted_output" +:+ "_" +:+ filter +:+ "_" +:+ user_id)
    with (String "e" (String "n" ("crypted_output" +:+ "_" +:+ filter +:+ "_" +:+ user_id))).
  change ("evaluation_key" +:+ "_" +:+ filter +:+ "_" +:+ user_id)
    with (String "e" (String "v" ("aluation_key" +:+ "_" +:+ filter +:+ "_" +:+ user_id))).
  rewrite E1, E2. discriminate.
Qed.

(** Two plain sessions that differ share no location, whatever the kinds
    of the two artifacts. *)
Lemma session_paths_differ (n1 u1 f1 n2 u2 f2 : string) :
  has_char "/" n1 = false → has_char "/" n2 = false →
  plain_session u1 f1 = true → plain_session u2 f2 = true →
  (u1, f1) ≠ (u2, f2) →
  get_server_file_path n1 u1 f1 ≠ get_server_file_path n2 u2 f2.
Proof.
  intros Hn1 Hn2 K1 K2 Hne E. apply Hne.
  unfold plain_session, plain_key in K1, K2. cbn [has_char negb andb] in K1, K2.
  apply (artifact_path_inj SERVER_TMP_PATH n1 f1 u1 n2 f2 u2) in E.
  - now injection E as _ -> ->.
  - unfold plain_key. now rewrite Hn1.
  - unfold plain_key. now rewrite Hn2.
Qed.

(** ** Runs of the server's handlers, step by step *)

Lemma wp_index {A} (l : list A) (i : nat) (w : World) (Q : Result A → World → Prop) :
  match l !! i with
  | Some a => Q (Ok a) w
  | None => Q (Raise IndexError) w
  end →
  wp (index l i) w Q.
Proof. unfold wp, index. now destruct (l !! i). Qed.

Lemma wp_getitem {A} (d : gmap string A) (k : string) (w : World)
    (Q : Result A → World → Prop) :
  match d !! k with
  | Some a => Q (Ok a) w
  | None => Q (Raise (KeyError k)) w
  end →
  wp (getitem d k) w Q.
Proof. unfold wp, getitem. now destruct (d !! k). Qed.

Lemma wp_time (w : World) (Q : Result float → World → Prop) :
  Q (Ok (clock (ticks w)))
    (mkWorld (files w) (S (ticks w)) (uuids w) (stdout w) (fhe w) (trace w)) →
  wp time w Q.
Proof. trivial. Qed.

Lemma wp_print (line : string) (w : World) (Q : Result unit → World → Prop) :
  Q (Ok tt)
    (mkWorld (files w) (ticks w) (uuids w) (stdout w ++ [line]) (fhe w) (trace w)) →
  wp (print line) w Q.
Proof. trivial. Qed.

Lemma wp_outcome {A} (m : M A) (w : World) (r : Result A) (w' : World) :
  wp m w (λ r0 w0, r0 = r ∧ w0 = w') → m w = (r, w').
Proof. unfold wp. destruct (m w) as [r0 w0]. cbn [fst snd]. now intros [-> ->]. Qed.

(** Looks a location up in files written one after the other. *)
Ltac files_simpl :=
  repeat first [ rewrite lookup_insert_eq | rewrite lookup_insert_ne by congruence ];
  cbn [default from_option id app lookup list_lookup].

(** Runs the next statement, whatever it is and however it ends. *)
Ltac wp_any :=
  lazymatch goal with
  | |- wp (index _ _) _ _ => apply wp_index; cbn [lookup list_lookup]; wp_simpl
  | |- wp (getitem _ _) _ _ => apply wp_getitem; wp_simpl
  | |- wp time _ _ => apply wp_time; wp_simpl
  | |- wp (print _) _ _ => apply wp_print; wp_simpl
  | |- _ => wp_step
  end.

(** Runs the next statement where its outcome is known. *)
Ltac wp_next :=
  lazymatch goal with
  | |- wp (_ ≫= _) _ _ => apply wp_bind
  | |- wp (download_image _) _ _ => unfold download_image
  | |- wp (Image_open _) _ _ => unfold Image_open
  | |- wp (Image_save _ _) _ _ => unfold Image_save
  | |- wp (get _) _ _ => unfold get
  | |- wp (post _ _ _) _ _ => unfold post
  | |- wp (new_FHEClient _ _ _) _ _ => unfold new_FHEClient
  | |- wp (generate_private_and_evaluation_keys _) _ _ =>
      unfold generate_private_and_evaluation_keys
  | |- wp (encrypt_serialize _ _) _ _ => unfold encrypt_serialize
  | |- wp (get_serialized_evaluation_keys _) _ _ => unfold get_serialized_evaluation_keys
  | |- wp (deserialize_decrypt_post_process _ _) _ _ =>
      unfold deserialize_decrypt_post_process
  | |- wp (net_call _ _ _) _ _ => apply wp_net_call
  | |- wp (fhe_call _ _ _) _ _ => apply wp_fhe_call
  | |- wp uuid _ _ => apply wp_uuid
  | |- wp (open_wb _) _ _ => apply wp_open_wb
  | |- wp (open_rb _) _ _ => apply wp_open_rb
  | |- wp (read _) _ _ => apply wp_read
  | |- wp (write _ _) _ _ => apply wp_write
  | |- wp (path_exists _) _ _ => apply wp_path_exists
  | |- wp (remove _) _ _ => apply wp_remove
  | |- wp (raise _) _ _ => apply wp_raise
  | |- wp (lift _) _ _ => apply wp_lift
  | |- wp (float_ _) _ _ => apply wp_float
  | |- wp (mret _) _ _ => apply wp_ret
  | |- wp (index _ _) _ _ => apply wp_index
  | |- wp (getitem _ _) _ _ => apply wp_getitem
  | |- wp time _ _ => apply wp_time
  | |- wp (print _) _ _ => apply wp_print
  end; wp_simpl; files_simpl; wp_simpl.

(** *** What a handler leaves alone *)

Lemma send_input_frame (user_id filter : string) (uploads : list bytes) (w : World)
    (p : Path) :
  p ≠ get_server_file_path "encrypted_image" user_id filter →
  p ≠ get_server_file_path "evaluation_key" user_id filter →
  files (snd (send_input user_id filter uploads w)) !! p = files w !! p.
Proof.
  intros Hi Hk.
  change (wp (send_input user_id filter uploads) w (λ _ w', files w' !! p = files w !! p)).
  unfold send_input. cbv zeta. repeat wp_any.
  all: now rewrite ?lookup_insert_ne by congruence.
Qed.

Lemma run_fhe_frame (user_id filter : string) (w : World) (p : Path) :
  p ≠ get_server_file_path "encrypted_output" user_id filter →
  files (snd (run_fhe user_id filter w)) !! p = files w !! p.
Proof.
  intros Ho.
  change (wp (run_fhe user_id filter) w (λ _ w', files w' !! p = files w !! p)).
  unfold run_fhe. cbv zeta. repeat wp_any.
  all: now rewrite ?lookup_insert_ne by congruence.
Qed.

Lemma get_output_frame (user_id filter : string) (w : World) :
  snd (get_output user_id filter w) = w.
Proof.
  unfold get_output, mbind, M_bind, open_rb, read. cbv zeta.
  now destruct (files w !! _).
Qed.

Lemma fhe_full_frame (user_id filter : string) (uploads : list bytes) (w : World)
    (p : Path) :
  p ≠ get_server_file_path "encrypted_image" user_id filter →
  p ≠ get_server_file_path "evaluation_key" user_id filter →
  p ≠ get_server_file_path "encrypted_output" user_id filter →
  files (snd (fhe_full user_id filter uploads w)) !! p = files w !! p.
Proof.
  intros Hi Hk Ho.
  change (wp (fhe_full user_id filter uploads) w (λ _ w', files w' !! p = files w !! p)).
  unfold fhe_full. cbv zeta. repeat wp_any.
  all: now rewrite ?lookup_insert_ne by congruence.
Qed.

(** X2: whatever a handler does for one session, it leaves the three
    artifacts of every other session as they were: sessions whose
    identifiers and filters hold neither a slash nor an underscore never
    reach each other's files. *)
Theorem sessions_isolated (user_id1 filter1 user_id2 filter2 : string)
    (uploads : list bytes) (w : World) :
  plain_session user_id1 filter1 = true → plain_session user_id2 filter2 = true →
  (user_id1, filter1) ≠ (user_id2, filter2) →
  session_files user_id2 filter2 (snd (send_input user_id1 filter1 uploads w))
  = session_files user_id2 filter2 w ∧
  session_files user_id2 filter2 (snd (run_fhe user_id1 filter1 w))
  = session_files user_id2 filter2 w ∧
  session_files user_id2 filter2 (snd (get_output user_id1 filter1 w))
  = session_files user_id2 filter2 w ∧
  session_files user_id2 filter2 (snd (fhe_full user_id1 filter1 uploads w))
  = session_files user_id2 filter2 w.
Proof.
  intros K1 K2 Hne.
  assert (Hp : ∀ n1 n2, has_char "/" n1 = false → has_char "/" n2 = false →
            get_server_file_path n2 user_id2 filter2
            ≠ get_server_file_path n1 user_id1 filter1).
  { intros n1 n2 Hn1 Hn2. apply session_paths_differ; try assumption. congruence. }
  unfold session_files. repeat split.
  - rewrite !send_input_frame by (now apply Hp). reflexivity.
  - rewrite !run_fhe_frame by (now apply Hp). reflexivity.
  - now rewrite get_output_frame.
  - rewrite !fhe_full_frame by (now apply Hp). reflexivity.
Qed.

(** X3: a compute never changes what it computes on: whether [run_fhe]
    returns or raises, the image and the key of the session are stored as
    they were. *)
Theorem run_fhe_keeps_inputs (user_id filter : string) (w : World) :
  files (snd (run_fhe user_id filter w)) !! get_server_file_path "encrypted_image" user_id filter
  = files w !! get_server_file_path "encrypted_image" user_id filter ∧
  files (snd (run_fhe user_id filter w)) !! get_server_file_path "evaluation_key" user_id filter
  = files w !! get_server_file_path "evaluation_key" user_id filter.
Proof.
  pose proof (output_image_paths_differ user_id filter).
  pose proof (output_key_paths_differ user_id filter).
  split; apply run_fhe_frame; congruence.
Qed.

(** *** Uploads that are missing *)

(** X4: a submit with fewer than two uploads raises [IndexError], and by then
    both files were opened for writing: what the session had stored is
    gone, the image is the one upload, if any, and the key is empty. *)
Theorem send_input_short_uploads (user_id filter : string) (uploads : list bytes)
    (w : World) :
  open_wb_error (get_server_file_path "encrypted_image" user_id filter) = None →
  open_wb_error (get_server_file_path "evaluation_key" user_id filter) = None →
  length uploads < 2 →
  send_input user_id filter uploads w
  = (Raise IndexError,
     set_files
       (<[get_server_file_path "evaluation_key" user_id filter := []]>
          (<[get_server_file_path "encrypted_image" user_id filter
             := default [] (head uploads)]> (files w)))
       w).
Proof.
  intros Hi Hk Hlen. pose proof (image_key_paths_differ user_id filter) as Hne.
  apply wp_outcome. unfold send_input. cbv zeta.
  destruct uploads as [|image [|key more]]; [| |cbn in Hlen; lia].
  all: repeat (wp_next; rewrite ?Hi, ?Hk).
  all: split; [reflexivity|]; unfold set_files; cbn [head default from_option id]; f_equal.
  all: apply map_eq; intros p; rewrite !lookup_insert; repeat case_decide;
    congruence.
Qed.

(** *** The three stages in sequence *)

(** X5: submit, compute, fetch: where the three locations open for writing,
    for an available filter whose engine returns on the payload, the fetch
    returns what the engine (the one loaded from the filter's deployment
    directory) gave on the submitted image and key, and changes nothing,
    so that the output can be fetched again. *)
Theorem stages_round_trip (user_id filter : string) (image key output : bytes)
    (more : list bytes) (w : World) :
  open_wb_error (get_server_file_path "encrypted_image" user_id filter) = None →
  open_wb_error (get_server_file_path "evaluation_key" user_id filter) = None →
  open_wb_error (get_server_file_path "encrypted_output" user_id filter) = None →
  filter ∈ AVAILABLE_FILTERS →
  FHEServer_run (FHEServer_load (path_div FILTERS_PATH (filter +:+ "/deployment"))) image key
  = Some output →
  let w1 := snd (send_input user_id filter (image :: key :: more) w) in
  let w2 := snd (run_fhe user_id filter w1) in
  fst (send_input user_id filter (image :: key :: more) w) = Ok tt ∧
  (∃ elapsed, fst (run_fhe user_id filter w1) = Ok elapsed) ∧
  get_output user_id filter w2 = (Ok output, w2) ∧
  session_files user_id filter w2 = (Some image, Some key, Some output).
Proof.
  intros Hi Hk Ho Hf Hrun w1 w2.
  pose proof (image_key_paths_differ user_id filter) as Hne.
  pose proof (output_image_paths_differ user_id filter) as Hoi.
  pose proof (output_key_paths_differ user_id filter) as Hok.
  assert (E1 : send_input user_id filter (image :: key :: more) w = (Ok tt, w1)).
  { subst w1. now rewrite send_input_run. }
  assert (Fi : files w1 !! get_server_file_path "encrypted_image" user_id filter
               = Some image).
  { subst w1. rewrite send_input_run by assumption. cbn [snd set_files files].
    now files_simpl. }
  assert (Fk : files w1 !! get_server_file_path "evaluation_key" user_id filter
               = Some key).
  { subst w1. rewrite send_input_run by assumption. cbn [snd set_files files].
    now files_simpl. }
  assert (E2 : run_fhe user_id filter w1
               = (Ok (float_round (float_sub (clock (S (ticks w1))) (clock (ticks w1))) 2),
                  w2)).
  { subst w2. rewrite (run_fhe_run _ _ _ _ _ Fi Fk), FHE_SERVERS_lookup.
    rewrite decide_True by assumption. rewrite Hrun. cbv zeta. now rewrite Ho. }
  assert (Fo : files w2 !! get_server_file_path "encrypted_output" user_id filter
               = Some output).
  { subst w2. rewrite (run_fhe_run _ _ _ _ _ Fi Fk), FHE_SERVERS_lookup.
    rewrite decide_True by assumption. rewrite Hrun. cbv zeta. rewrite Ho.
    cbn [snd set_files files]. now files_simpl. }
  rewrite E1, E2. cbn [fst]. split; [reflexivity|]. split; [eauto|]. split.
  - unfold get_output, mbind, M_bind, open_rb, read. cbv zeta. now rewrite !Fo.
  - unfold session_files. rewrite Fo. f_equal. f_equal.
    + subst w2. now rewrite run_fhe_frame by congruence.
    + subst w2. now rewrite run_fhe_frame by congruence.
Qed.

(** *** The fused call *)


(** X7: [fhe_full] for a filter that is not available raises the [KeyError]
    of the registry lookup only after it has stored both uploads as the
    session's image and key and printed its first line: the failed call
    leaves the session submitted. *)
Theorem fhe_full_unknown_filter (user_id filter : string) (image key : bytes)
    (more : list bytes) (w : World) :
  open_wb_error (get_server_file_path "encrypted_image" user_id filter) = None →
  open_wb_error (get_server_file_path "evaluation_key" user_id filter) = None →
  filter ∉ AVAILABLE_FILTERS →
  fhe_full user_id filter (image :: key :: more) w
  = (Raise (KeyError filter),
     mkWorld
       (<[get_server_file_path "evaluation_key" user_id filter := key]>
          (<[get_server_file_path "encrypted_image" user_id filter := image]> (files w)))
       (ticks w) (uuids w)
       (stdout w ++ ["Encrypted image and evaluation key saved"])
       (fhe w) (trace w)).
Proof.
  intros Hi Hk Hf.
  pose proof (image_key_paths_differ user_id filter) as Hne.
  assert (Hs : FHE_SERVERS !! filter = None)
    by (rewrite FHE_SERVERS_lookup; now rewrite decide_False).
  apply wp_outcome. unfold fhe_full. cbv zeta.
  repeat (wp_next; rewrite ?Hi, ?Hk, ?Hs; wp_simpl).
  split; [reflexivity|]. f_equal.
  apply map_eq; intros p; rewrite !lookup_insert; repeat case_decide; congruence.
Qed.

(** *** When a compute returns *)

(** X8: [run_fhe] returns exactly when the image and the key of the session
    are stored, the filter is available, the engine of the filter returns
    on them, and the location of the output opens for writing. *)
Theorem run_fhe_returns_iff (user_id filter : string) (w : World) :
  (∃ elapsed, fst (run_fhe user_id filter w) = Ok elapsed) ↔
  ∃ image key output,
    files w !! get_server_file_path "encrypted_image" user_id filter = Some image ∧
    files w !! get_server_file_path "evaluation_key" user_id filter = Some key ∧
    filter ∈ AVAILABLE_FILTERS ∧
    FHEServer_run (FHEServer_load (path_div FILTERS_PATH (filter +:+ "/deployment")))
      image key = Some output ∧
    open_wb_error (get_server_file_path "encrypted_output" user_id filter) = None.
Proof.
  destruct (files w !! get_server_file_path "encrypted_image" user_id filter)
    as [image|] eqn:Hi.
  2: { split.
       - intros [t Ht]. unfold run_fhe, mbind, M_bind, open_rb in Ht.
         rewrite Hi in Ht. discriminate.
       - intros (? & ? & ? & ? & _). discriminate. }
  destruct (files w !! get_server_file_path "evaluation_key" user_id filter)
    as [key|] eqn:Hk.
  2: { split.
       - intros [t Ht]. unfold run_fhe, mbind, M_bind, open_rb in Ht.
         rewrite Hi, Hk in Ht. discriminate.
       - intros (? & ? & ? & _ & ? & _). discriminate. }
  rewrite (run_fhe_run _ _ _ _ _ Hi Hk), FHE_SERVERS_lookup.
  destruct (decide (filter ∈ AVAILABLE_FILTERS)) as [Hf|Hf].
  2: { split; [intros [t Ht]; discriminate|intros (? & ? & ? & _ & _ & ? & _); tauto]. }
  destruct (FHEServer_run _ image key) as [output|] eqn:Hrun.
  2: { split; [intros [t Ht]; discriminate|].
       intros (? & ? & ? & [= <-] & [= <-] & _ & ? & _). congruence. }
  cbv zeta.
  destruct (open_wb_error (get_server_file_path "encrypted_output" user_id filter)) eqn:Ho.
  - split; [intros [t Ht]; discriminate|].
    intros (? & ? & ? & _ & _ & _ & _ & ?). discriminate.
  - split; [|eauto]. intros _. exists image, key, output. repeat split; assumption.
Qed.

(** ** The client's tools *)

(** *** The decrypted bytes *)

Lemma byte_of_Z_of_byte (b : byte) : byte_of_Z (Z_of_byte b) = b.
Proof. now destruct b. Qed.

Lemma reshape_frombuffer (b : bytes) :
  reshape (numpy_frombuffer b) [100; 100; 3]
  = if decide (length b = 100 * 100 * 3)
    then Ok (mk_ndarray [100; 100; 3] (Z_of_byte <$> b))
    else Raise (ValueError ("cannot reshape array of size " +:+ pretty (length b)
                            +:+ " into shape (100,100,3)")).
Proof.
  unfold reshape, numpy_frombuffer. cbn [items]. rewrite length_fmap.
  destruct (decide (length b = foldr Nat.mul 1 [100; 100; 3])) as [E|E].
  - now rewrite decide_True by exact E.
  - now rewrite decide_False by exact E.
Qed.

Lemma Image_fromarray_bytes (b : bytes) :
  Image_fromarray (mk_ndarray [100; 100; 3] (Z_of_byte <$> b))
  = Ok (mk_Image "RGB" (100, 100) b).
Proof.
  unfold Image_fromarray. cbn [shape items]. do 2 f_equal.
  rewrite <- list_fmap_compose. apply list_eq. intros i. rewrite list_lookup_fmap.
  destruct (b !! i); [|reflexivity]. cbn. now rewrite byte_of_Z_of_byte.
Qed.

(** X9: in a run of [decrypt_output_image] that builds its client,
    generates its keys, finds the output stored and is handed bytes by the
    decryption: when there are not exactly 100 x 100 x 3 of them, the tool
    raises the [ValueError] of [reshape], writes no file and draws no uuid;
    when there are, and the JPEG encoder and the file of the image accept
    them, it returns the locator of that file, which holds the JPEG
    encoding of the RGB image of 100 x 100 whose pixels are these very
    bytes. *)
Theorem decrypted_bytes_image (user_id filter_name output_id : string) (w : World)
    (client : FHEClient) (s1 s2 s3 : FHEState) (encrypted_output b : bytes) :
  FHEClient_new (path_div FILTERS_PATH (unquote filter_name +:+ "/deployment"))
    (unquote filter_name) (path_div KEYS_PATH (unquote filter_name +:+ "_" +:+ user_id))
    (fhe w) = (Some client, s1) →
  FHEClient_generate_private_and_evaluation_keys client s1 = (Some tt, s2) →
  files w !! get_client_file_path "output" output_id (unquote filter_name)
  = Some encrypted_output →
  FHEClient_deserialize_decrypt_post_process client encrypted_output s2
  = (Some (DBytes b), s3) →
  let r := fst (decrypt_output_image user_id filter_name output_id w) in
  let w' := snd (decrypt_output_image user_id filter_name output_id w) in
  let temp_jpg_path :=
    get_client_file_path ("temp_jpg_" +:+ uuid4 (uuids w)) (user_id +:+ ".jpeg")
      (unquote filter_name) in
  if decide (length b = 100 * 100 * 3) then
    ∀ jpeg,
      jpeg_encode (mk_Image "RGB" (100, 100) b) = Some jpeg →
      open_wb_error temp_jpg_path = None →
      r = Ok (FHE_SERVER_URL +:+ "/test/image/" +:+ path_name temp_jpg_path) ∧
      files w' !! temp_jpg_path = Some jpeg
  else
    r = Raise (ValueError ("cannot reshape array of size " +:+ pretty (length b)
                           +:+ " into shape (100,100,3)")) ∧
    files w' = files w ∧ uuids w' = uuids w.
Proof.
  intros Hnew Hgen Hfile Hdec. cbv zeta.
  destruct (decide (length b = 100 * 100 * 3)) as [Hlen|Hlen].
  - intros jpeg Hjpeg Hopen.
    change (wp (decrypt_output_image user_id filter_name output_id) w
      (λ r w',
         r = Ok (FHE_SERVER_URL +:+ "/test/image/" +:+
                 path_name (get_client_file_path ("temp_jpg_" +:+ uuid4 (uuids w))
                              (user_id +:+ ".jpeg") (unquote filter_name))) ∧
         files w' !! get_client_file_path ("temp_jpg_" +:+ uuid4 (uuids w))
                       (user_id +:+ ".jpeg") (unquote filter_name) = Some jpeg)).
    unfold decrypt_output_image. cbv zeta.
    repeat (wp_next;
            rewrite ?Hnew, ?Hgen, ?Hfile, ?Hdec, ?reshape_frombuffer, ?Image_fromarray_bytes,
              ?Hjpeg, ?Hopen;
            rewrite ?decide_True by exact Hlen; wp_simpl).
    now split.
  - change (wp (decrypt_output_image user_id filter_name output_id) w
      (λ r w',
         r = Raise (ValueError ("cannot reshape array of size " +:+ pretty (length b)
                                +:+ " into shape (100,100,3)")) ∧
         files w' = files w ∧ uuids w' = uuids w)).
    unfold decrypt_output_image. cbv zeta.
    repeat (wp_next;
            rewrite ?Hnew, ?Hgen, ?Hfile, ?Hdec, ?reshape_frombuffer;
            rewrite ?decide_False by exact Hlen; wp_simpl).
    now repeat split.
Qed.

(** *** Decryption of an output that is not there *)

(** X10: on an output identifier under which nothing is stored,
    [decrypt_output_image] never returns, writes nothing and draws no
    uuid; it raises on the constructor of its client, on key generation, or
    the error of opening the location of the output ([FileNotFoundError],
    or the environment's error where the location cannot be opened at
    all), and that last one only after it has built its client and
    generated keys in the key directory. *)
Theorem decrypt_missing_output (user_id filter_name output_id : string) (w : World) :
  files w !! get_client_file_path "output" output_id (unquote filter_name) = None →
  let path_dir := path_div FILTERS_PATH (unquote filter_name +:+ "/deployment") in
  let key_dir := path_div KEYS_PATH (unquote filter_name +:+ "_" +:+ user_id) in
  let output_path := get_client_file_path "output" output_id (unquote filter_name) in
  let r := fst (decrypt_output_image user_id filter_name output_id w) in
  let w' := snd (decrypt_output_image user_id filter_name output_id w) in
  files w' = files w ∧ uuids w' = uuids w ∧
  ((r = Raise (External "FHEClient") ∧
    calls_since w w' = [Call_FHEClient path_dir (unquote filter_name) key_dir None]) ∨
   ∃ client,
     calls_since w w'
     = [Call_FHEClient path_dir (unquote filter_name) key_dir (Some client);
        Call_generate_private_and_evaluation_keys client] ∧
     (r = Raise (External "generate_private_and_evaluation_keys") ∨
      r = Raise (match open_rb_error output_path with
                 | None => FileNotFoundError output_path
                 | Some e => e
                 end))).
Proof.
  intros Hfile. cbv zeta.
  change (wp (decrypt_output_image user_id filter_name output_id) w
    (λ r w',
       files w' = files w ∧ uuids w' = uuids w ∧
       ((r = Raise (External "FHEClient") ∧
         calls_since w w'
         = [Call_FHEClient (path_div FILTERS_PATH (unquote filter_name +:+ "/deployment"))
              (unquote filter_name)
              (path_div KEYS_PATH (unquote filter_name +:+ "_" +:+ user_id)) None]) ∨
        ∃ client,
          calls_since w w'
          = [Call_FHEClient (path_div FILTERS_PATH (unquote filter_name +:+ "/deployment"))
               (unquote filter_name)
               (path_div KEYS_PATH (unquote filter_name +:+ "_" +:+ user_id)) (Some client);
             Call_generate_private_and_evaluation_keys client] ∧
          (r = Raise (External "generate_private_and_evaluation_keys") ∨
           r = Raise (absent_error
                        (get_client_file_path "output" output_id (unquote filter_name))))))).
  unfold decrypt_output_image. cbv zeta.
  repeat wp_step.
  all: try discriminate Hfile.
  all: split; [reflexivity|]; split; [reflexivity|].
  all: erewrite calls_since_app by (cbn [trace]; rewrite <- ?app_assoc; reflexivity);
    cbn [app]; eauto 10.
Qed.

(** *** The locator of the decrypted image *)

Lemma temp_jpg_path (image_uuid user_id filter_name : string) :
  has_char "/" filter_name = false → has_char "/" user_id = false →
  has_char "/" image_uuid = false →
  get_client_file_path ("temp_jpg_" +:+ image_uuid) (user_id +:+ ".jpeg") filter_name
  = CLIENT_TMP_PATH
    ++ ["temp_jpg_" +:+ image_uuid +:+ "_" +:+ filter_name +:+ "_" +:+ user_id +:+ ".jpeg"].
Proof.
  intros Hf Hu Hi. unfold get_client_file_path.
  rewrite path_div_artifact; [reflexivity| |assumption|].
  - now rewrite has_char_app, Hi.
  - now rewrite has_char_app, Hu.
Qed.

(** X11: when [decrypt_output_image] returns, with a filter name, a user
    identifier and a fresh uuid that hold no slash, the locator it returns
    ends in the name of the JPEG file it has just written, and [test_image]
    on that name serves exactly that file, as [image/jpeg]. *)
Theorem decrypted_image_served (user_id filter_name output_id url : string)
    (w w' : World) :
  has_char "/" (unquote filter_name) = false →
  has_char "/" user_id = false →
  has_char "/" (uuid4 (uuids w)) = false →
  decrypt_output_image user_id filter_name output_id w = (Ok url, w') →
  let image_name :=
    "temp_jpg_" +:+ uuid4 (uuids w) +:+ "_" +:+ unquote filter_name +:+ "_" +:+ user_id
    +:+ ".jpeg" in
  url = FHE_SERVER_URL +:+ "/test/image/" +:+ image_name ∧
  ∃ pil_image jpeg,
    jpeg_encode pil_image = Some jpeg ∧
    test_image image_name w' = (Ok (mkResponse jpeg [("content-type", "image/jpeg")]), w').
Proof.
  intros Hf Hu Hi Hrun. cbv zeta.
  enough (Hwp : wp (decrypt_output_image user_id filter_name output_id) w
    (λ r w', ∀ url, r = Ok url →
       url = FHE_SERVER_URL +:+ "/test/image/" +:+
             ("temp_jpg_" +:+ uuid4 (uuids w) +:+ "_" +:+ unquote filter_name +:+ "_"
              +:+ user_id +:+ ".jpeg") ∧
       ∃ pil_image jpeg,
         jpeg_encode pil_image = Some jpeg ∧
         test_image ("temp_jpg_" +:+ uuid4 (uuids w) +:+ "_" +:+ unquote filter_name +:+ "_"
                     +:+ user_id +:+ ".jpeg") w'
         = (Ok (mkResponse jpeg [("content-type", "image/jpeg")]), w'))).
  { unfold wp in Hwp. rewrite Hrun in Hwp. exact (Hwp url eq_refl). }
  clear Hrun url w'. unfold decrypt_output_image. cbv zeta.
  repeat wp_step.
  all: intros url E; try discriminate E; injection E as <-.
  all: rewrite (temp_jpg_path _ _ _ Hf Hu Hi).
  all: (split; [unfold path_name; now rewrite last_last|]).
  all: do 2 eexists; (split; [eassumption|]).
  all: unfold test_image, mbind, M_bind, open_rb, read, mret, M_ret; cbv zeta.
  all: rewrite (path_div_plain CLIENT_TMP_PATH) by
    (rewrite ?has_char_app, ?Hf, ?Hu, ?Hi; (reflexivity || discriminate)).
  all: cbn [files]; rewrite !lookup_insert_eq; cbn [files]; rewrite !lookup_insert_eq;
    reflexivity.
Qed.

(** *** What a job encrypts and sends *)

(** X12: whatever a job hands to [encrypt_serialize] is the array of the image
    decoded from the body of the answer to its GET, whatever the status of
    that answer, converted and resized. *)
Theorem job_encrypts_download (image_url filter_name : string) (w : World)
    (client : FHEClient) (a : ndarray) :
  Call_encrypt_serialize client a
    ∈ calls_since w (snd (process_image_with_fhe image_url filter_name w)) →
  ∃ downloaded input_image,
    requests_get image_url = Some downloaded ∧
    Image_decode (r_content downloaded) = Some input_image ∧
    a = numpy_array (job_input_image input_image).
Proof.
  change (wp (process_image_with_fhe image_url filter_name) w
    (λ r w',
       Call_encrypt_serialize client a ∈ calls_since w w' →
       ∃ downloaded input_image,
         requests_get image_url = Some downloaded ∧
         Image_decode (r_content downloaded) = Some input_image ∧
         a = numpy_array (job_input_image input_image))).
  unfold process_image_with_fhe.
  repeat wp_step.
  all: try (intros Hin; calls_in Hin; fail).
  match goal with
  | i : Image |- _ => destruct (preprocess_rgb_100 i) as (_ & _ & Hsh)
  end.
  cbv zeta in Hsh. apply wp_assert. rewrite (bool_decide_eq_true_2 _ Hsh).
  repeat wp_step.
  all: intros Hin; calls_in Hin; injection Hin as -> ->.
  all: match goal with
       | E : Image_decode _ = Some _ |- _ =>
           rewrite lookup_insert_eq in E; cbn [default from_option id] in E;
           rewrite lookup_insert_eq in E; cbn [default from_option id app] in E
       end.
  all: eauto.
Qed.

(** What a job that returns has drawn: the second uuid of the run is its
    user identifier and the third its output identifier. *)
Lemma job_draws (image_url filter_name : string) (w w1 : World) (job : JobResult) :
  process_image_with_fhe image_url filter_name w = (Ok job, w1) →
  job_user_id job = uuid4 (S (uuids w)) ∧
  job_output_id job = uuid4 (S (S (uuids w))) ∧
  uuids w1 = S (S (S (uuids w))).
Proof.
  intros Hjob.
  enough (Hwp : wp (process_image_with_fhe image_url filter_name) w
    (λ r w1, ∀ job, r = Ok job →
       job_user_id job = uuid4 (S (uuids w)) ∧
       job_output_id job = uuid4 (S (S (uuids w))) ∧
       uuids w1 = S (S (S (uuids w))))).
  { unfold wp in Hwp. rewrite Hjob in Hwp. exact (Hwp job eq_refl). }
  clear Hjob job w1. unfold process_image_with_fhe.
  repeat wp_step.
  all: try (intros job E; discriminate E).
  wp_shape_check.
  repeat wp_step.
  all: intros job E; try discriminate E; injection E as <-.
  all: repeat split.
Qed.

(** X13: where the uuids drawn are distinct, a job and any later job report
    distinct user identifiers and distinct output identifiers: no key
    directory and no output of one job is that of the other. *)
Theorem job_identifiers_fresh (image_url1 filter_name1 image_url2 filter_name2 : string)
    (w w1 w2 w3 : World) (job1 job2 : JobResult) :
  (∀ m n, uuid4 m = uuid4 n → m = n) →
  process_image_with_fhe image_url1 filter_name1 w = (Ok job1, w1) →
  uuids w1 ≤ uuids w2 →
  process_image_with_fhe image_url2 filter_name2 w2 = (Ok job2, w3) →
  job_user_id job1 ≠ job_user_id job2 ∧
  job_output_id job1 ≠ job_output_id job2 ∧
  job_user_id job1 ≠ job_output_id job2 ∧
  job_output_id job1 ≠ job_user_id job2 ∧
  job_user_id job1 ≠ job_output_id job1.
Proof.
  intros Hinj Hjob1 Hle Hjob2.
  destruct (job_draws _ _ _ _ _ Hjob1) as (-> & -> & Hu1).
  destruct (job_draws _ _ _ _ _ Hjob2) as (-> & -> & _).
  repeat split; intros E%Hinj; lia.
Qed.

(** X14: the one POST of a job goes to [/fhe_full] with the user identifier
    the job reports, the filter name as given, and two uploads: the
    encrypted image first and the evaluation keys second, the order in
    which [fhe_full] reads them. *)
Theorem job_post_request (image_url filter_name : string) (w : World)
    (url : string) (data : list (string * string))
    (uploads : list (string * (string * bytes * string))) (ret : option HTTPResponse) :
  Call_post url data uploads ret
    ∈ calls_since w (snd (process_image_with_fhe image_url filter_name w)) →
  url = FHE_SERVER_URL +:+ "/fhe_full" ∧
  (∃ user_id,
     data = [("user_id", user_id); ("filter", filter_name)] ∧
     ∀ job, fst (process_image_with_fhe image_url filter_name w) = Ok job →
       job_user_id job = user_id) ∧
  ∃ encrypted_image evaluation_keys,
    uploads
    = [("files", ("encrypted_image.bin", encrypted_image, "application/octet-stream"));
       ("files", ("evaluation_keys.bin", evaluation_keys, "application/octet-stream"))].
Proof.
  change (wp (process_image_with_fhe image_url filter_name) w
    (λ r w',
       Call_post url data uploads ret ∈ calls_since w w' →
       url = FHE_SERVER_URL +:+ "/fhe_full" ∧
       (∃ user_id,
          data = [("user_id", user_id); ("filter", filter_name)] ∧
          ∀ job, r = Ok job → job_user_id job = user_id) ∧
       ∃ encrypted_image evaluation_keys,
         uploads
         = [("files", ("encrypted_image.bin", encrypted_image, "application/octet-stream"));
            ("files", ("evaluation_keys.bin", evaluation_keys,
                       "application/octet-stream"))])).
  unfold process_image_with_fhe.
  repeat wp_step.
  all: try (intros Hin; calls_in Hin; fail).
  wp_shape_check.
  repeat wp_step.
  all: intros Hin; calls_in Hin; injection Hin as -> -> -> ->.
  all: split; [reflexivity|]; split; [|eauto].
  all: eexists; split; [reflexivity|].
  all: intros job E; try discriminate E; now injection E as <-.
Qed.

(** *** The encrypted output after its decryption *)

Lemma temp_output_paths_differ (image_uuid user_id output_id filter_name : string) :
  get_client_file_path ("temp_jpg_" +:+ image_uuid) (user_id +:+ ".jpeg") filter_name
  ≠ get_client_file_path "output" output_id filter_name.
Proof.
  unfold get_client_file_path, path_div.
  change (root_of (("temp_jpg_" +:+ image_uuid) +:+ "_" +:+ filter_name +:+ "_"
                   +:+ user_id +:+ ".jpeg")) with (@None string).
  change (root_of ("output" +:+ "_" +:+ filter_name +:+ "_" +:+ output_id))
    with (@None string).
  intros E%app_inv_head. revert E.
  destruct (parse_parts_head "t" "e"
              ("mp_jpg_" +:+ image_uuid +:+ "_" +:+ filter_name +:+ "_" +:+ user_id
               +:+ ".jpeg") eq_refl eq_refl)
    as (w1 & ws1 & E1).
  destruct (parse_parts_head "o" "u"
              ("tput" +:+ "_" +:+ filter_name +:+ "_" +:+ output_id) eq_refl eq_refl)
    as (w2 & ws2 & E2).
  change (("temp_jpg_" +:+ image_uuid) +:+ "_" +:+ filter_name +:+ "_" +:+ user_id
          +:+ ".jpeg")
    with (String "t" (String "e" ("mp_jpg_" +:+ image_uuid +:+ "_" +:+ filter_name +:+ "_"
                                  +:+ user_id +:+ ".jpeg"))).
  change ("output" +:+ "_" +:+ filter_name +:+ "_" +:+ output_id)
    with (String "o" (String "u" ("tput" +:+ "_" +:+ filter_name +:+ "_" +:+ output_id))).
  rewrite E1, E2. discriminate.
Qed.

(** X15: [decrypt_output_image] never changes the encrypted output it reads,
    whether it returns or raises: the one file it writes, the JPEG, has
    another name, so the same output can be decrypted again. *)
Theorem decrypt_keeps_output (user_id filter_name output_id : string) (w : World) :
  files (snd (decrypt_output_image user_id filter_name output_id w))
    !! get_client_file_path "output" output_id (unquote filter_name)
  = files w !! get_client_file_path "output" output_id (unquote filter_name).
Proof.
  change (wp (decrypt_output_image user_id filter_name output_id) w
    (λ _ w',
       files w' !! get_client_file_path "output" output_id (unquote filter_name)
       = files w !! get_client_file_path "output" output_id (unquote filter_name))).
  unfold decrypt_output_image. cbv zeta.
  repeat wp_step.
  all: rewrite ?lookup_delete_ne, ?lookup_insert_ne by apply temp_output_paths_differ.
  all: first [reflexivity|assumption].
Qed.

(** *** The lines of the fused call *)

(** A run that raised after [n] lines. *)
Ltac log_prefix n :=
  exists n; split; [lia|]; split;
    [cbn [take fhe_full_lines]; now rewrite ?app_nil_r, <- ?app_assoc|];
    split; [intros [response E]; discriminate E|discriminate].

(** X16: whatever [fhe_full] is called on and however it ends, the lines it
    has printed are the first lines of its five, in order, and it returns
    exactly when it has printed all five. *)
Theorem fhe_full_log (user_id filter : string) (uploads : list bytes) (w : World) :
  ∃ n,
    n ≤ 5 ∧
    stdout (snd (fhe_full user_id filter uploads w)) = stdout w ++ take n fhe_full_lines ∧
    ((∃ response, fst (fhe_full user_id filter uploads w) = Ok response) ↔ n = 5).
Proof.
  change (wp (fhe_full user_id filter uploads) w
    (λ r w',
       ∃ n, n ≤ 5 ∧ stdout w' = stdout w ++ take n fhe_full_lines ∧
            ((∃ response, r = Ok response) ↔ n = 5))).
  unfold fhe_full. cbv zeta. repeat wp_any.
  all: first
    [ solve [ exists 5; split; [lia|]; split;
                [cbn [take fhe_full_lines]; now rewrite <- ?app_assoc|];
                split; [reflexivity|eauto] ]
    | solve [log_prefix 0] | solve [log_prefix 1] | solve [log_prefix 2]
    | solve [log_prefix 3] | solve [log_prefix 4] ].
Qed.

(** *** Where a download lands *)

Lemma join_snoc (sep : string) (l : list string) (x : string) :
  l ≠ [] → join sep l +:+ sep +:+ x = join sep (l ++ [x]).
Proof.
  induction l as [|c [|d l] IH]; intros Hl; [congruence|reflexivity|].
  change (join sep (c :: d :: l)) with (c +:+ sep +:+ join sep (d :: l)).
  change (join sep ((c :: d :: l) ++ [x])) with (c +:+ sep +:+ join sep ((d :: l) ++ [x])).
  rewrite <- IH by discriminate. now rewrite !append_assoc.
Qed.

Lemma split_at_component (c t : string) :
  has_char "/" c = false → split_at "/" (c +:+ String "/" t) = c :: split_at "/" t.
Proof.
  induction c as [|d c IH]; intros Hc; [reflexivity|].
  cbn [has_char] in Hc. destruct (Ascii.eqb d "/") eqn:Hd; [discriminate|].
  rewrite append_cons, split_at_String, Hd, (IH Hc). reflexivity.
Qed.

Lemma plain_component_spec (c : string) :
  plain_component c = true → has_char "/" c = false ∧ c ≠ "" ∧ c ≠ ".".
Proof.
  unfold plain_component. rewrite !andb_true_iff, !negb_true_iff, !String.eqb_neq. tauto.
Qed.

(** Splitting the components of a directory joined with slashes gives
    them back. *)
Lemma parse_parts_join (l : list string) :
  l ≠ [] → forallb plain_component l = true → parse_parts (join "/" l) = l.
Proof.
  unfold parse_parts.
  induction l as [|c [|d l] IH]; intros Hl Hp; [congruence| |].
  - cbn [forallb] in Hp. rewrite andb_true_r in Hp.
    apply plain_component_spec in Hp as (Hc & Hc1 & Hc2).
    cbn [join]. rewrite (split_at_plain _ _ Hc), filter_cons, filter_nil.
    now rewrite decide_True.
  - change (forallb plain_component (c :: d :: l))
      with (plain_component c && forallb plain_component (d :: l)) in Hp.
    apply andb_true_iff in Hp as [Hc Hp].
    apply plain_component_spec in Hc as (Hc & Hc1 & Hc2).
    change (join "/" (c :: d :: l)) with (c +:+ String "/" (join "/" (d :: l))).
    rewrite (split_at_component _ _ Hc), filter_cons, decide_True by now split.
    now rewrite IH.
Qed.

Lemma root_of_slash (d : ascii) (s : string) :
  Ascii.eqb d "/" = false → root_of (String "/" (String d s)) = Some "/".
Proof.
  intros Hd. unfold root_of.
  destruct d as [[] [] [] [] [] [] [] []]; try reflexivity; discriminate.
Qed.

(** The string of a plain directory, a slash and a name, read back as a
    path, is the directory extended by the name. *)
Lemma path_of_str_in_dir (p : Path) (name : string) :
  plain_dir p = true → plain_component name = true →
  path_of_str (path_str p +:+ "/" +:+ name) = p ++ [name].
Proof.
  intros Hp Hn. unfold plain_dir in Hp.
  destruct p as [|r [|c rest]]; try discriminate.
  apply andb_true_iff in Hp as [->%String.eqb_eq Hp].
  assert (Hl : forallb plain_component ((c :: rest) ++ [name]) = true).
  { rewrite forallb_app, Hp. cbn [forallb]. now rewrite Hn. }
  unfold path_str. rewrite decide_True by now left.
  change (("/" +:+ join "/" (c :: rest)) +:+ "/" +:+ name)
    with (String "/" (join "/" (c :: rest) +:+ "/" +:+ name)).
  rewrite join_snoc by discriminate.
  pose proof (parse_parts_join ((c :: rest) ++ [name])) as Hparse.
  unfold path_of_str, path_div.
  assert (Hroot : root_of (String "/" (join "/" ((c :: rest) ++ [name]))) = Some "/").
  { cbn [forallb] in Hp. apply andb_true_iff in Hp as [Hc _].
    apply plain_component_spec in Hc as (Hc & Hc1 & _).
    destruct c as [|d c]; [congruence|]. cbn [has_char] in Hc.
    destruct (Ascii.eqb d "/") eqn:Hd; [discriminate|].
    destruct rest; apply (root_of_slash d _ Hd). }
  rewrite Hroot. change (("/" :: c :: rest) ++ [name]) with ("/" :: (c :: rest) ++ [name]).
  f_equal. rewrite <- Hparse at 2 by (discriminate || assumption).
  unfold parse_parts. rewrite split_at_String. cbn [Ascii.eqb Bool.eqb].
  rewrite filter_cons, decide_False; [reflexivity|]. intros [Hne _]. now apply Hne.
Qed.

Lemma jpg_name_plain (u : string) :
  has_char "/" u = false → plain_component (u +:+ ".jpg") = true.
Proof.
  intros Hu. unfold plain_component. rewrite has_char_app, Hu.
  destruct u as [|a u]; [reflexivity|]. rewrite append_cons. cbn [String.eqb].
  destruct (Ascii.eqb a "."); [|reflexivity]. destruct u; reflexivity.
Qed.

(** X17: a download whose GET is answered, under a client directory made of
    plain components and a uuid with no slash: the body of the answer,
    whatever it is, is stored in that directory as [<uuid>.jpg], the
    string returned names that file, and [test_image] serves it under
    that name. *)
Theorem download_image_location (image_url : string) (response : HTTPResponse)
    (w : World) :
  plain_dir CLIENT_TMP_PATH = true →
  has_char "/" (uuid4 (uuids w)) = false →
  requests_get image_url = Some response →
  open_wb_error (CLIENT_TMP_PATH ++ [uuid4 (uuids w) +:+ ".jpg"]) = None →
  let image_name := uuid4 (uuids w) +:+ ".jpg" in
  let w' := snd (download_image image_url w) in
  fst (download_image image_url w) = Ok (path_str CLIENT_TMP_PATH +:+ "/" +:+ image_name) ∧
  files w' !! (CLIENT_TMP_PATH ++ [image_name]) = Some (r_content response) ∧
  test_image image_name w'
  = (Ok (mkResponse (r_content response) [("content-type", "image/jpeg")]), w').
Proof.
  intros Hdir Hu Hget Hopen. cbv zeta.
  pose proof (jpg_name_plain _ Hu) as Hname.
  pose proof (path_of_str_in_dir _ _ Hdir Hname) as Hpath.
  apply plain_component_spec in Hname as (Hn & Hn1 & Hn2).
  assert (Hrun : download_image image_url w
    = (Ok (path_str CLIENT_TMP_PATH +:+ "/" +:+ uuid4 (uuids w) +:+ ".jpg"),
       mkWorld (<[CLIENT_TMP_PATH ++ [uuid4 (uuids w) +:+ ".jpg"] := r_content response]>
                  (files w))
         (ticks w) (S (uuids w)) (stdout w) (fhe w)
         (trace w ++ [Call_get image_url (Some response)]))).
  { apply wp_outcome. unfold download_image. cbv zeta.
    repeat (wp_next; rewrite ?Hget, ?Hpath, ?Hopen; wp_simpl).
    split; [reflexivity|]. f_equal. now rewrite insert_insert_eq. }
  rewrite Hrun. cbn [fst snd files]. split; [reflexivity|].
  split; [now rewrite lookup_insert_eq|].
  unfold test_image, mbind, M_bind, open_rb, read, mret, M_ret. cbv zeta.
  rewrite (path_div_plain _ _ Hn Hn1 Hn2). cbn [files].
  rewrite !lookup_insert_eq. cbn [files]. now rewrite !lookup_insert_eq.
Qed.

(** ** Requests served one after the other *)














(** ** The elapsed time *)

End properties.

(** * The properties on the small deployment *)

#[local] Existing Instance Demo.common.
#[local] Existing Instance Demo.pyfloat.
#[local] Existing Instance Demo.env.
#[local] Existing Instance Demo.servers.
#[local] Existing Instance Demo.client.
#[local] Existing Instance Demo.imaging.
#[local] Existing Instance Demo.net.
#[local] Existing Instance Demo.urllib.

(** Decides a closed decidable statement by evaluation. *)
Ltac by_evaluation :=
  lazymatch goal with
  | |- ?P => apply (bool_decide_unpack P); vm_compute; exact I
  end.

(** C1, as stated, fails: an underscore in the identity moves the border
    between the filter and the identity, and the join drops a doubled
    slash in the filter and a slash at the end of the identity: in each
    case two distinct keys of one kind share one path, in every
    deployment. *)
Lemma get_file_path_collision :
  ("encrypted_image", "a_b", "c") ≠ ("encrypted_image", "a", "b_c") ∧
  (∀ common : Common,
     @get_server_file_path common "encrypted_image" "c" "a_b"
     = @get_server_file_path common "encrypted_image" "b_c" "a") ∧
  (∀ common : Common,
     @get_client_file_path common "output" "c" "a_b"
     = @get_client_file_path common "output" "b_c" "a") ∧
  ("encrypted_image", "a//b", "c") ≠ ("encrypted_image", "a/b", "c") ∧
  (∀ common : Common,
     @get_server_file_path common "encrypted_image" "c" "a//b"
     = @get_server_file_path common "encrypted_image" "c" "a/b") ∧
  ("encrypted_image", "a", "c/") ≠ ("encrypted_image", "a", "c") ∧
  (∀ common : Common,
     @get_server_file_path common "encrypted_image" "c/" "a"
     = @get_server_file_path common "encrypted_image" "c" "a").
Proof. repeat split; (discriminate || reflexivity). Qed.

(** C1 (as amended) on two filters with underscores in their names. *)
Lemma get_file_path_injective_witness :
  ("encrypted_image", "black_and", "u1") ≠ ("encrypted_image", "black_and_white", "u1") ∧
  server_key "encrypted_image" "black_and" "u1" = true ∧
  server_key "encrypted_image" "black_and_white" "u1" = true ∧
  get_server_file_path "encrypted_image" "u1" "black_and"
  ≠ get_server_file_path "encrypted_image" "u1" "black_and_white" ∧
  client_key "output" "black_and" "u1" = true ∧
  client_key "output" "black_and_white" "u1" = true ∧
  get_client_file_path "output" "u1" "black_and"
  ≠ get_client_file_path "output" "u1" "black_and_white".
Proof.
  assert (Hne : ("encrypted_image", "black_and", "u1")
                ≠ ("encrypted_image", "black_and_white", "u1")) by discriminate.
  assert (Hne' : ("output", "black_and", "u1") ≠ ("output", "black_and_white", "u1"))
    by discriminate.
  assert (S1 : server_key "encrypted_image" "black_and" "u1" = true) by reflexivity.
  assert (S2 : server_key "encrypted_image" "black_and_white" "u1" = true) by reflexivity.
  assert (K1 : client_key "output" "black_and" "u1" = true) by reflexivity.
  assert (K2 : client_key "output" "black_and_white" "u1" = true) by reflexivity.
  split; [exact Hne|]. split; [exact S1|]. split; [exact S2|].
  split; [exact (proj1 (get_file_path_injective _ _ _ _ _ _ Hne) S1 S2)|].
  split; [exact K1|]. split; [exact K2|].
  exact (proj2 (get_file_path_injective _ _ _ _ _ _ Hne') K1 K2).
Defined.





(** C5 on two payloads. *)
Lemma second_submit_wins_witness :
  open_wb_error (get_server_file_path "encrypted_image" "u1" "grayscale") = None ∧
  open_wb_error (get_server_file_path "evaluation_key" "u1" "grayscale") = None ∧
  (send_input "u1" "grayscale" [[x01]; [x02]] ≫= λ _,
   send_input "u1" "grayscale" [[x03; x04]; [x05]]) Demo.boot
  = send_input "u1" "grayscale" [[x03; x04]; [x05]] Demo.boot ∧
  files (snd ((send_input "u1" "grayscale" [[x01]; [x02]] ≫= λ _,
               send_input "u1" "grayscale" [[x03; x04]; [x05]]) Demo.boot))
    !! get_server_file_path "encrypted_image" "u1" "grayscale" = Some [x03; x04].
Proof.
  assert (Hi : open_wb_error (get_server_file_path "encrypted_image" "u1" "grayscale")
               = None) by reflexivity.
  assert (Hk : open_wb_error (get_server_file_path "evaluation_key" "u1" "grayscale")
               = None) by reflexivity.
  split; [exact Hi|]. split; [exact Hk|].
  destruct (second_submit_wins "u1" "grayscale" [x01] [x02] [x03; x04] [x05] [] []
              Demo.boot Hi Hk) as (Htwice & _ & Himage & _).
  split; [exact Htwice|exact Himage].
Defined.

(** C6, as stated, fails: on a filter of the deployment whose name holds
    a percent escape, the job builds its client and stores its output
    under the name as given, and [decrypt_output_image] derives the
    deployment and the key directory from the decoded name: another key
    directory, on a deployment that does not exist, so that the constructor
    of the client raises and nothing is decrypted. *)
Lemma decrypt_key_dir_differs :
  ("black%20white" ∈ AVAILABLE_FILTERS) ∧
  fst (process_image_with_fhe "http://localhost/cat.png" "black%20white" Demo.boot)
  = Ok (mkJobResult "uuid1" "black%20white" 0%Z "uuid2" "success") ∧
  calls_since Demo.boot
    (snd (process_image_with_fhe "http://localhost/cat.png" "black%20white" Demo.boot)) !! 1
  = Some (Call_FHEClient ["/"; "srv"; "filters"; "black%20white"; "deployment"]
            "black%20white" ["/"; "srv"; "keys"; "black%20white_uuid1"]
            (Some ["/"; "srv"; "keys"; "black%20white_uuid1"])) ∧
  calls_since
    (snd (process_image_with_fhe "http://localhost/cat.png" "black%20white" Demo.boot))
    (snd (decrypt_output_image "uuid1" "black%20white" "uuid2"
            (snd (process_image_with_fhe "http://localhost/cat.png" "black%20white"
                    Demo.boot))))
  = [Call_FHEClient ["/"; "srv"; "filters"; "black white"; "deployment"] "black white"
       ["/"; "srv"; "keys"; "black white_uuid1"] None] ∧
  fst (decrypt_output_image "uuid1" "black%20white" "uuid2"
         (snd (process_image_with_fhe "http://localhost/cat.png" "black%20white"
                 Demo.boot)))
  = Raise (External "FHEClient").
Proof. split; [by_evaluation|]. repeat split; vm_compute; reflexivity. Qed.

(** C6 (as amended) on a job of the filter [grayscale]: the three calls
    of the decryption, the last one on the bytes of the server's answer. *)
Lemma decrypt_after_job_witness :
  has_char "%" "grayscale" = false ∧
  process_image_with_fhe "http://localhost/cat.png" "grayscale" Demo.boot
  = (Ok (mkJobResult "uuid1" "grayscale" 0%Z "uuid2" "success"),
     snd (process_image_with_fhe "http://localhost/cat.png" "grayscale" Demo.boot)) ∧
  calls_since
    (snd (process_image_with_fhe "http://localhost/cat.png" "grayscale" Demo.boot))
    (snd (decrypt_output_image "uuid1" "grayscale" "uuid2"
            (snd (process_image_with_fhe "http://localhost/cat.png" "grayscale"
                    Demo.boot))))
  = [Call_FHEClient ["/"; "srv"; "filters"; "grayscale"; "deployment"] "grayscale"
       ["/"; "srv"; "keys"; "grayscale_uuid1"] (Some ["/"; "srv"; "keys"; "grayscale_uuid1"]);
     Call_generate_private_and_evaluation_keys ["/"; "srv"; "keys"; "grayscale_uuid1"];
     Call_deserialize_decrypt_post_process ["/"; "srv"; "keys"; "grayscale_uuid1"] [x07]].
Proof.
  assert (Hjob :
    process_image_with_fhe "http://localhost/cat.png" "grayscale" Demo.boot
    = (Ok (mkJobResult "uuid1" "grayscale" 0%Z "uuid2" "success"),
       snd (process_image_with_fhe "http://localhost/cat.png" "grayscale" Demo.boot)))
    by (vm_compute; reflexivity).
  split; [reflexivity|]. split; [exact Hjob|].
  assert (Hf : has_char "%" "grayscale" = false) by reflexivity.
  destruct (decrypt_after_job "http://localhost/cat.png" "grayscale" Demo.boot _ _
              Hf Hjob) as (c & d & a & data & uploads & response & _ & Hfile & Hcalls).
  assert (Hbody : r_content response = [x07]).
  { assert (Hstored :
      files (snd (process_image_with_fhe "http://localhost/cat.png" "grayscale" Demo.boot))
        !! get_client_file_path "output"
             (job_output_id (mkJobResult "uuid1" "grayscale" 0%Z "uuid2" "success"))
             "grayscale" = Some [x07]) by (vm_compute; reflexivity).
    rewrite Hstored in Hfile. now injection Hfile as <-. }
  rewrite Hbody in Hcalls. cbn [job_user_id job_output_id] in Hcalls.
  rewrite Hcalls. vm_compute. reflexivity.
Defined.

(** C9 on a filter that is not available. *)
Lemma send_input_any_filter_witness :
  ("sepia" ∉ AVAILABLE_FILTERS) ∧
  open_wb_error (get_server_file_path "encrypted_image" "u1" "sepia") = None ∧
  open_wb_error (get_server_file_path "evaluation_key" "u1" "sepia") = None ∧
  fst (send_input "u1" "sepia" [[x01]; [x02]] Demo.boot) = Ok tt ∧
  files (snd (send_input "u1" "sepia" [[x01]; [x02]] Demo.boot))
    !! get_server_file_path "encrypted_image" "u1" "sepia" = Some [x01] ∧
  files (snd (send_input "u1" "sepia" [[x01]; [x02]] Demo.boot))
    !! get_server_file_path "evaluation_key" "u1" "sepia" = Some [x02].
Proof.
  assert (Hi : open_wb_error (get_server_file_path "encrypted_image" "u1" "sepia")
               = None) by reflexivity.
  assert (Hk : open_wb_error (get_server_file_path "evaluation_key" "u1" "sepia")
               = None) by reflexivity.
  split; [by_evaluation|]. split; [exact Hi|]. split; [exact Hk|].
  exact (proj2 (send_input_any_filter "u1" "sepia" Demo.boot) Hi Hk [x01] [x02] []).
Defined.

(** C10 on the network of the deployment, which sends no header. *)
Lemma missing_header_defaults_witness :
  Call_post "http://localhost:8000/fhe_full"
    [("user_id", "uuid1"); ("filter", "grayscale")]
    [("files", ("encrypted_image.bin", [x2a; x2b], "application/octet-stream"));
     ("files", ("evaluation_keys.bin", [x01], "application/octet-stream"))]
    (Some (mk_HTTPResponse [x07] ∅))
    ∈ calls_since Demo.boot
        (snd (process_image_with_fhe "http://localhost/cat.png" "grayscale" Demo.boot)) ∧
  r_headers (mk_HTTPResponse [x07] ∅) !! lower "X-FHE-Execution-Time" = None ∧
  ∃ user_id output_id,
    match open_wb_error (get_client_file_path "output" output_id "grayscale") with
    | None =>
        fst (process_image_with_fhe "http://localhost/cat.png" "grayscale" Demo.boot)
        = Ok (mkJobResult user_id "grayscale" (float_of_int 0) output_id "success")
    | Some errno =>
        fst (process_image_with_fhe "http://localhost/cat.png" "grayscale" Demo.boot)
        = Raise (OSError errno (get_client_file_path "output" output_id "grayscale"))
    end.
Proof.
  assert (Hin :
    Call_post "http://localhost:8000/fhe_full"
      [("user_id", "uuid1"); ("filter", "grayscale")]
      [("files", ("encrypted_image.bin", [x2a; x2b], "application/octet-stream"));
       ("files", ("evaluation_keys.bin", [x01], "application/octet-stream"))]
      (Some (mk_HTTPResponse [x07] ∅))
      ∈ calls_since Demo.boot
          (snd (process_image_with_fhe "http://localhost/cat.png" "grayscale" Demo.boot))).
  { apply (list_elem_of_lookup_2 _ 5). vm_compute. reflexivity. }
  assert (Hh : r_headers (mk_HTTPResponse [x07] ∅) !! lower "X-FHE-Execution-Time" = None)
    by reflexivity.
  split; [exact Hin|]. split; [exact Hh|].
  exact (missing_header_defaults _ _ _ _ _ _ _ Hin Hh).
Defined.

(** The same deployment with the clock that is set back. *)
Section clock_set_back.
#[local] Existing Instance Demo.set_back | 0.


End clock_set_back.


(** C8 on the job of the deployment: the array it encrypts. *)
Lemma job_shape_check_witness :
  Call_encrypt_serialize ["/"; "srv"; "keys"; "grayscale_uuid1"]
    (numpy_array (job_input_image (mk_Image "RGBA" (2, 1) [x2a; x2b])))
    ∈ calls_since Demo.boot
        (snd (process_image_with_fhe "http://localhost/cat.png" "grayscale" Demo.boot)) ∧
  ∃ downloaded input_image,
    requests_get "http://localhost/cat.png" = Some downloaded ∧
    Image_decode (r_content downloaded) = Some input_image ∧
    mode (job_input_image input_image) = "RGB" ∧
    size (job_input_image input_image) = (100, 100) ∧
    numpy_array (job_input_image (mk_Image "RGBA" (2, 1) [x2a; x2b]))
    = numpy_array (job_input_image input_image) ∧
    shape (numpy_array (job_input_image (mk_Image "RGBA" (2, 1) [x2a; x2b])))
    = [100; 100; 3].
Proof.
  assert (Hin :
    Call_encrypt_serialize ["/"; "srv"; "keys"; "grayscale_uuid1"]
      (numpy_array (job_input_image (mk_Image "RGBA" (2, 1) [x2a; x2b])))
      ∈ calls_since Demo.boot
          (snd (process_image_with_fhe "http://localhost/cat.png" "grayscale" Demo.boot))).
  { apply (list_elem_of_lookup_2 _ 3). vm_compute. reflexivity. }
  split; [exact Hin|].
  exact (proj1 (proj2 (job_shape_check "http://localhost/cat.png" "grayscale" Demo.boot))
           _ _ Hin).
Defined.

(** ** The further properties on the small deployment *)

(** A session's handlers leave the other session of the filter alone. *)
Lemma sessions_isolated_witness :
  plain_session "u1" "grayscale" = true ∧
  plain_session "u2" "grayscale" = true ∧
  ("u1", "grayscale") ≠ ("u2", "grayscale") ∧
  session_files "u2" "grayscale"
    (snd (fhe_full "u1" "grayscale" [[x01]; [x02]]
            (snd (send_input "u2" "grayscale" [[x03]; [x04]] Demo.boot))))
  = (Some [x03], Some [x04], None).
Proof.
  assert (K1 : plain_session "u1" "grayscale" = true) by reflexivity.
  assert (K2 : plain_session "u2" "grayscale" = true) by reflexivity.
  assert (Hne : ("u1", "grayscale") ≠ ("u2", "grayscale")) by discriminate.
  split; [exact K1|]. split; [exact K2|]. split; [exact Hne|].
  rewrite (proj2 (proj2 (proj2
    (sessions_isolated "u1" "grayscale" "u2" "grayscale" [[x01]; [x02]]
       (snd (send_input "u2" "grayscale" [[x03]; [x04]] Demo.boot)) K1 K2 Hne)))).
  vm_compute. reflexivity.
Defined.

(** A submit with one upload, after a submit with two. *)
Lemma send_input_short_uploads_witness :
  open_wb_error (get_server_file_path "encrypted_image" "u1" "grayscale") = None ∧
  open_wb_error (get_server_file_path "evaluation_key" "u1" "grayscale") = None ∧
  length [[x03]] < 2 ∧
  fst (send_input "u1" "grayscale" [[x03]]
         (snd (send_input "u1" "grayscale" [[x01]; [x02]] Demo.boot)))
  = Raise IndexError ∧
  session_files "u1" "grayscale"
    (snd (send_input "u1" "grayscale" [[x03]]
            (snd (send_input "u1" "grayscale" [[x01]; [x02]] Demo.boot))))
  = (Some [x03], Some [], None).
Proof.
  assert (Hi : open_wb_error (get_server_file_path "encrypted_image" "u1" "grayscale")
               = None) by reflexivity.
  assert (Hk : open_wb_error (get_server_file_path "evaluation_key" "u1" "grayscale")
               = None) by reflexivity.
  assert (Hlen : length [[x03]] < 2) by (apply le_n).
  split; [exact Hi|]. split; [exact Hk|]. split; [exact Hlen|].
  rewrite (send_input_short_uploads "u1" "grayscale" [[x03]]
             (snd (send_input "u1" "grayscale" [[x01]; [x02]] Demo.boot)) Hi Hk Hlen).
  split; vm_compute; reflexivity.
Defined.

(** The three stages on the engine of the deployment, which reverses the
    image. *)
Lemma stages_round_trip_witness :
  open_wb_error (get_server_file_path "encrypted_image" "u1" "grayscale") = None ∧
  open_wb_error (get_server_file_path "evaluation_key" "u1" "grayscale") = None ∧
  open_wb_error (get_server_file_path "encrypted_output" "u1" "grayscale") = None ∧
  ("grayscale" ∈ AVAILABLE_FILTERS) ∧
  FHEServer_run (FHEServer_load (path_div FILTERS_PATH ("grayscale" +:+ "/deployment")))
    [x01; x02] [x03] = Some [x02; x01] ∧
  fst (get_output "u1" "grayscale"
         (snd (run_fhe "u1" "grayscale"
                 (snd (send_input "u1" "grayscale" [[x01; x02]; [x03]] Demo.boot)))))
  = Ok [x02; x01].
Proof.
  assert (Hi : open_wb_error (get_server_file_path "encrypted_image" "u1" "grayscale")
               = None) by reflexivity.
  assert (Hk : open_wb_error (get_server_file_path "evaluation_key" "u1" "grayscale")
               = None) by reflexivity.
  assert (Ho : open_wb_error (get_server_file_path "encrypted_output" "u1" "grayscale")
               = None) by reflexivity.
  assert (Hf : "grayscale" ∈ AVAILABLE_FILTERS) by by_evaluation.
  assert (Hrun : FHEServer_run
                   (FHEServer_load (path_div FILTERS_PATH ("grayscale" +:+ "/deployment")))
                   [x01; x02] [x03] = Some [x02; x01]) by reflexivity.
  split; [exact Hi|]. split; [exact Hk|]. split; [exact Ho|]. split; [exact Hf|].
  split; [exact Hrun|].
  destruct (stages_round_trip "u1" "grayscale" [x01; x02] [x03] [x02; x01] [] Demo.boot
              Hi Hk Ho Hf Hrun) as (_ & _ & Hget & _).
  rewrite Hget. reflexivity.
Defined.


(** The fused call for a filter the deployment does not have. *)
Lemma fhe_full_unknown_filter_witness :
  open_wb_error (get_server_file_path "encrypted_image" "u1" "sepia") = None ∧
  open_wb_error (get_server_file_path "evaluation_key" "u1" "sepia") = None ∧
  ("sepia" ∉ AVAILABLE_FILTERS) ∧
  fst (fhe_full "u1" "sepia" [[x01]; [x02]] Demo.boot) = Raise (KeyError "sepia") ∧
  session_files "u1" "sepia" (snd (fhe_full "u1" "sepia" [[x01]; [x02]] Demo.boot))
  = (Some [x01], Some [x02], None).
Proof.
  assert (Hi : open_wb_error (get_server_file_path "encrypted_image" "u1" "sepia")
               = None) by reflexivity.
  assert (Hk : open_wb_error (get_server_file_path "evaluation_key" "u1" "sepia")
               = None) by reflexivity.
  assert (Hf : "sepia" ∉ AVAILABLE_FILTERS) by by_evaluation.
  split; [exact Hi|]. split; [exact Hk|]. split; [exact Hf|].
  rewrite (fhe_full_unknown_filter "u1" "sepia" [x01] [x02] [] Demo.boot Hi Hk Hf).
  split; vm_compute; reflexivity.
Defined.

(** X9 on the host that holds an output of the expected size: the file of
    the image holds these very bytes, which the codec of the deployment
    keeps. *)
Lemma decrypted_bytes_image_witness :
  FHEClient_new ["/"; "srv"; "filters"; "grayscale"; "deployment"] "grayscale"
    ["/"; "srv"; "keys"; "grayscale_u1"] (fhe Demo.decryptable)
  = (Some ["/"; "srv"; "keys"; "grayscale_u1"], 0) ∧
  FHEClient_generate_private_and_evaluation_keys ["/"; "srv"; "keys"; "grayscale_u1"] 0
  = (Some tt, 1) ∧
  files Demo.decryptable !! ["/"; "srv"; "client_tmp"; "output_grayscale_o1"]
  = Some (replicate (100 * 100 * 3) x00) ∧
  FHEClient_deserialize_decrypt_post_process ["/"; "srv"; "keys"; "grayscale_u1"]
    (replicate (100 * 100 * 3) x00) 1
  = (Some (DBytes (replicate (100 * 100 * 3) x00)), 1) ∧
  fst (decrypt_output_image "u1" "grayscale" "o1" Demo.decryptable)
  = Ok "http://localhost:8000/test/image/temp_jpg_uuid0_grayscale_u1.jpeg" ∧
  files (snd (decrypt_output_image "u1" "grayscale" "o1" Demo.decryptable))
    !! ["/"; "srv"; "client_tmp"; "temp_jpg_uuid0_grayscale_u1.jpeg"]
  = Some (replicate (100 * 100 * 3) x00).
Proof.
  assert (Hnew :
    FHEClient_new (path_div FILTERS_PATH (unquote "grayscale" +:+ "/deployment"))
      (unquote "grayscale") (path_div KEYS_PATH (unquote "grayscale" +:+ "_" +:+ "u1"))
      (fhe Demo.decryptable)
    = (Some ["/"; "srv"; "keys"; "grayscale_u1"], 0)) by reflexivity.
  assert (Hgen :
    FHEClient_generate_private_and_evaluation_keys ["/"; "srv"; "keys"; "grayscale_u1"] 0
    = (Some tt, 1)) by reflexivity.
  assert (Hfile :
    files Demo.decryptable !! get_client_file_path "output" "o1" (unquote "grayscale")
    = Some (replicate (100 * 100 * 3) x00)) by apply lookup_insert_eq.
  assert (Hdec :
    FHEClient_deserialize_decrypt_post_process ["/"; "srv"; "keys"; "grayscale_u1"]
      (replicate (100 * 100 * 3) x00) 1
    = (Some (DBytes (replicate (100 * 100 * 3) x00)), 1)) by reflexivity.
  split; [exact Hnew|]. split; [exact Hgen|]. split; [exact Hfile|]. split; [exact Hdec|].
  pose proof (decrypted_bytes_image "u1" "grayscale" "o1" Demo.decryptable _ _ _ _ _ _
                Hnew Hgen Hfile Hdec) as Himage.
  cbv zeta in Himage.
  rewrite decide_True in Himage by apply length_replicate.
  exact (Himage (replicate (100 * 100 * 3) x00) eq_refl eq_refl).
Defined.

(** Decryption on a host that holds no output. *)
Lemma decrypt_missing_output_witness :
  files Demo.boot !! get_client_file_path "output" "o1" (unquote "grayscale") = None ∧
  files (snd (decrypt_output_image "u1" "grayscale" "o1" Demo.boot)) = files Demo.boot ∧
  uuids (snd (decrypt_output_image "u1" "grayscale" "o1" Demo.boot)) = uuids Demo.boot.
Proof.
  assert (Hfile : files Demo.boot !! get_client_file_path "output" "o1" (unquote "grayscale")
                  = None) by reflexivity.
  split; [exact Hfile|].
  destruct (decrypt_missing_output "u1" "grayscale" "o1" Demo.boot Hfile)
    as (Hfiles & Huuids & _).
  split; [exact Hfiles|exact Huuids].
Defined.

Lemma outcome_of_fst {A B} (p : A * B) (a : A) : fst p = a → p = (a, snd p).
Proof. destruct p. cbn. now intros ->. Qed.

(** Decryption on a host that holds an output of the expected size: the
    locator, and the file behind it. *)
Lemma decrypted_image_served_witness :
  has_char "/" (unquote "grayscale") = false ∧
  has_char "/" "u1" = false ∧
  has_char "/" (uuid4 (uuids Demo.decryptable)) = false ∧
  decrypt_output_image "u1" "grayscale" "o1" Demo.decryptable
  = (Ok "http://localhost:8000/test/image/temp_jpg_uuid0_grayscale_u1.jpeg",
     snd (decrypt_output_image "u1" "grayscale" "o1" Demo.decryptable)) ∧
  ∃ pil_image jpeg,
    jpeg_encode pil_image = Some jpeg ∧
    test_image "temp_jpg_uuid0_grayscale_u1.jpeg"
      (snd (decrypt_output_image "u1" "grayscale" "o1" Demo.decryptable))
    = (Ok (mkResponse jpeg [("content-type", "image/jpeg")]),
       snd (decrypt_output_image "u1" "grayscale" "o1" Demo.decryptable)).
Proof.
  assert (Hf : has_char "/" (unquote "grayscale") = false) by reflexivity.
  assert (Hu : has_char "/" "u1" = false) by reflexivity.
  assert (Hi : has_char "/" (uuid4 (uuids Demo.decryptable)) = false) by reflexivity.
  assert (Hurl :
    fst (decrypt_output_image "u1" "grayscale" "o1" Demo.decryptable)
    = Ok "http://localhost:8000/test/image/temp_jpg_uuid0_grayscale_u1.jpeg")
    by (vm_compute; reflexivity).
  pose proof (outcome_of_fst _ _ Hurl) as Hrun.
  split; [exact Hf|]. split; [exact Hu|]. split; [exact Hi|]. split; [exact Hrun|].
  exact (proj2 (decrypted_image_served "u1" "grayscale" "o1" _ Demo.decryptable _
                  Hf Hu Hi Hrun)).
Defined.

(** What the job of the deployment encrypts. *)
Lemma job_encrypts_download_witness :
  Call_encrypt_serialize ["/"; "srv"; "keys"; "grayscale_uuid1"]
    (numpy_array (job_input_image (mk_Image "RGBA" (2, 1) [x2a; x2b])))
    ∈ calls_since Demo.boot
        (snd (process_image_with_fhe "http://localhost/cat.png" "grayscale" Demo.boot)) ∧
  ∃ downloaded input_image,
    requests_get "http://localhost/cat.png" = Some downloaded ∧
    Image_decode (r_content downloaded) = Some input_image ∧
    numpy_array (job_input_image (mk_Image "RGBA" (2, 1) [x2a; x2b]))
    = numpy_array (job_input_image input_image).
Proof.
  assert (Hin :
    Call_encrypt_serialize ["/"; "srv"; "keys"; "grayscale_uuid1"]
      (numpy_array (job_input_image (mk_Image "RGBA" (2, 1) [x2a; x2b])))
      ∈ calls_since Demo.boot
          (snd (process_image_with_fhe "http://localhost/cat.png" "grayscale" Demo.boot))).
  { apply (list_elem_of_lookup_2 _ 3). vm_compute. reflexivity. }
  split; [exact Hin|].
  exact (job_encrypts_download _ _ _ _ _ Hin).
Defined.

Lemma Demo_uuid4_inj (m n : nat) : uuid4 m = uuid4 n → m = n.
Proof.
  cbn [uuid4 Demo.env]. intros E. injection E as E.
  change ("" +:+ pretty m = "" +:+ pretty n) with (pretty m = pretty n) in E.
  now apply (inj pretty) in E.
Qed.

(** Two jobs, one after the other. *)
Lemma job_identifiers_fresh_witness :
  (∀ m n, uuid4 m = uuid4 n → m = n) ∧
  process_image_with_fhe "http://localhost/cat.png" "grayscale" Demo.boot
  = (Ok (mkJobResult "uuid1" "grayscale" 0%Z "uuid2" "success"),
     snd (process_image_with_fhe "http://localhost/cat.png" "grayscale" Demo.boot)) ∧
  process_image_with_fhe "http://localhost/dog.png" "grayscale"
    (snd (process_image_with_fhe "http://localhost/cat.png" "grayscale" Demo.boot))
  = (Ok (mkJobResult "uuid4" "grayscale" 0%Z "uuid5" "success"),
     snd (process_image_with_fhe "http://localhost/dog.png" "grayscale"
            (snd (process_image_with_fhe "http://localhost/cat.png" "grayscale"
                    Demo.boot)))) ∧
  "uuid1" ≠ "uuid4" ∧ "uuid2" ≠ "uuid5".
Proof.
  assert (Hjob1 :
    process_image_with_fhe "http://localhost/cat.png" "grayscale" Demo.boot
    = (Ok (mkJobResult "uuid1" "grayscale" 0%Z "uuid2" "success"),
       snd (process_image_with_fhe "http://localhost/cat.png" "grayscale" Demo.boot)))
    by (vm_compute; reflexivity).
  assert (Hjob2 :
    process_image_with_fhe "http://localhost/dog.png" "grayscale"
      (snd (process_image_with_fhe "http://localhost/cat.png" "grayscale" Demo.boot))
    = (Ok (mkJobResult "uuid4" "grayscale" 0%Z "uuid5" "success"),
       snd (process_image_with_fhe "http://localhost/dog.png" "grayscale"
              (snd (process_image_with_fhe "http://localhost/cat.png" "grayscale"
                      Demo.boot)))))
    by (vm_compute; reflexivity).
  split; [exact Demo_uuid4_inj|]. split; [exact Hjob1|]. split; [exact Hjob2|].
  destruct (job_identifiers_fresh _ _ _ _ _ _ _ _ _ _ Demo_uuid4_inj Hjob1 (le_n _) Hjob2)
    as (Hu & Ho & _).
  split; [exact Hu|exact Ho].
Defined.

(** The POST of the job of the deployment. *)
Lemma job_post_request_witness :
  Call_post "http://localhost:8000/fhe_full"
    [("user_id", "uuid1"); ("filter", "grayscale")]
    [("files", ("encrypted_image.bin", [x2a; x2b], "application/octet-stream"));
     ("files", ("evaluation_keys.bin", [x01], "application/octet-stream"))]
    (Some (mk_HTTPResponse [x07] ∅))
    ∈ calls_since Demo.boot
        (snd (process_image_with_fhe "http://localhost/cat.png" "grayscale" Demo.boot)) ∧
  ∀ job,
    fst (process_image_with_fhe "http://localhost/cat.png" "grayscale" Demo.boot) = Ok job →
    job_user_id job = "uuid1".
Proof.
  assert (Hin :
    Call_post "http://localhost:8000/fhe_full"
      [("user_id", "uuid1"); ("filter", "grayscale")]
      [("files", ("encrypted_image.bin", [x2a; x2b], "application/octet-stream"));
       ("files", ("evaluation_keys.bin", [x01], "application/octet-stream"))]
      (Some (mk_HTTPResponse [x07] ∅))
      ∈ calls_since Demo.boot
          (snd (process_image_with_fhe "http://localhost/cat.png" "grayscale" Demo.boot))).
  { apply (list_elem_of_lookup_2 _ 5). vm_compute. reflexivity. }
  split; [exact Hin|].
  destruct (job_post_request _ _ _ _ _ _ _ Hin) as (_ & (user_id & Hdata & Hjob) & _).
  injection Hdata as <-. exact Hjob.
Defined.

(** A download on the deployment, and the file served under its name. *)
Lemma download_image_location_witness :
  plain_dir CLIENT_TMP_PATH = true ∧
  has_char "/" (uuid4 (uuids Demo.boot)) = false ∧
  requests_get "http://localhost/cat.png" = Some (mk_HTTPResponse [x2a; x2b] ∅) ∧
  open_wb_error (CLIENT_TMP_PATH ++ [uuid4 (uuids Demo.boot) +:+ ".jpg"]) = None ∧
  fst (download_image "http://localhost/cat.png" Demo.boot) = Ok "/srv/client_tmp/uuid0.jpg" ∧
  fst (test_image "uuid0.jpg" (snd (download_image "http://localhost/cat.png" Demo.boot)))
  = Ok (mkResponse [x2a; x2b] [("content-type", "image/jpeg")]).
Proof.
  assert (Hdir : plain_dir CLIENT_TMP_PATH = true) by reflexivity.
  assert (Hu : has_char "/" (uuid4 (uuids Demo.boot)) = false) by reflexivity.
  assert (Hget : requests_get "http://localhost/cat.png"
                 = Some (mk_HTTPResponse [x2a; x2b] ∅)) by reflexivity.
  assert (Hopen : open_wb_error (CLIENT_TMP_PATH ++ [uuid4 (uuids Demo.boot) +:+ ".jpg"])
                  = None) by reflexivity.
  split; [exact Hdir|]. split; [exact Hu|]. split; [exact Hget|]. split; [exact Hopen|].
  destruct (download_image_location "http://localhost/cat.png" _ Demo.boot
              Hdir Hu Hget Hopen) as (Hret & _ & Hserve).
  split; [exact Hret|exact (f_equal fst Hserve)].
Defined.
